(** * Soroswap n8n node: the per-item operation dispatcher

    A shallow embedding of [Soroswap.execute]
    (src/nodes/Soroswap/Soroswap.node.ts) together with the JavaScript
    built-ins it relies on ([BigInt], [String.prototype.split], [trim],
    [toLowerCase]).

    Conventions.
    - A JavaScript string is a [string]; each [ascii] stands for one code
      unit below 256, which is enough for every identifier, address and
      amount the node handles.
    - An arbitrary-precision integer ([bigint]) is a [Z].
    - The remote client ([SoroswapSDK]) and the enum tables of
      [@soroswap/sdk] are not part of this repository: they are section
      variables.  The remote system is a state ([World]) threaded through
      every call.
    - A JavaScript exception is the left injection of a sum.
    - The host keeps, for every item, the value of each parameter that
      the description displays for the item's operation (the schema
      default when the user set none), typed as the source casts it.
      [getNodeParameter] returns that value, and throws for a parameter
      that is not displayed. *)

From Stdlib Require Import String Ascii ZArith List Bool Lia.
From Stdlib Require Import Decimal DecimalString DecimalNat.
Import ListNotations.

Local Open Scope string_scope.
Local Open Scope Z_scope.
Local Open Scope list_scope.

(** ** JavaScript string built-ins *)

Module Js.

(** White space and line terminators of ECMAScript among the code units
    below 256: TAB, LF, VT, FF, CR, SP and NBSP. *)
Definition isWhiteSpace (c : ascii) : bool :=
  let n := nat_of_ascii c in
  ((9 <=? n) && (n <=? 13) || (n =? 32) || (n =? 160))%nat.

Fixpoint trimStart (s : string) : string :=
  match s with
  | EmptyString => EmptyString
  | String c s' => if isWhiteSpace c then trimStart s' else s
  end.

Fixpoint trimEnd (s : string) : string :=
  match s with
  | EmptyString => EmptyString
  | String c s' =>
      match trimEnd s' with
      | EmptyString => if isWhiteSpace c then EmptyString else String c EmptyString
      | t => String c t
      end
  end.

(** [String.prototype.trim] *)
Definition trim (s : string) : string := trimEnd (trimStart s).

(** Every code unit of [s] is white space. *)
Fixpoint allWhiteSpace (s : string) : bool :=
  match s with
  | EmptyString => true
  | String c s' => isWhiteSpace c && allWhiteSpace s'
  end.

(** [String.prototype.split] with a one-code-unit separator and no limit.
    The result is never empty: splitting the empty string gives one
    empty segment. *)
Fixpoint split (sep : ascii) (s : string) : list string :=
  match s with
  | EmptyString => [EmptyString]
  | String c s' =>
      if Ascii.eqb c sep then EmptyString :: split sep s'
      else match split sep s' with
           | h :: t => String c h :: t
           | [] => [String c EmptyString]
           end
  end.

(** Lower-case mapping of one code unit below 256: A-Z, and the Latin-1
    capitals U+00C0..U+00DE except the multiplication sign U+00D7. *)
Definition lowerUnit (c : ascii) : ascii :=
  let n := nat_of_ascii c in
  if ((65 <=? n) && (n <=? 90)
      || (192 <=? n) && (n <=? 222) && negb (n =? 215))%nat
  then ascii_of_nat (n + 32) else c.

(** [String.prototype.toLowerCase] *)
Fixpoint toLowerCase (s : string) : string :=
  match s with
  | EmptyString => EmptyString
  | String c s' => String (lowerUnit c) (toLowerCase s')
  end.

(** Truthiness of a string: only the empty string is falsy. *)
Definition truthy (s : string) : bool :=
  match s with EmptyString => false | _ => true end.

(** *** Errors *)

(** The exceptions that can reach the [catch] of the dispatcher.
    [SyntaxError] is what [BigInt] throws, [SdkError] stands for anything
    the remote client or the host throws, [NodeOperationError] is n8n's
    error carrying the index of the item it is about. *)
Inductive Error : Type :=
| SyntaxError (message : string)
| SdkError (message : string)
| NodeOperationError (message : string) (itemIndex : nat).

Definition message (e : Error) : string :=
  match e with
  | SyntaxError m => m
  | SdkError m => m
  | NodeOperationError m _ => m
  end.

(** *** [BigInt(string)] : the StringToBigInt operation *)

(** Value of a digit in the given radix (2, 8, 10 or 16). *)
Definition digitValue (radix : Z) (c : ascii) : option Z :=
  let n := Z.of_nat (nat_of_ascii c) in
  let v :=
    if (48 <=? n) && (n <=? 57) then Some (n - 48)
    else if (97 <=? n) && (n <=? 102) then Some (n - 87)
    else if (65 <=? n) && (n <=? 70) then Some (n - 55)
    else None in
  match v with
  | Some d => if d <? radix then Some d else None
  | None => None
  end.

Fixpoint digitsFrom (radix : Z) (s : string) (acc : Z) : option Z :=
  match s with
  | EmptyString => Some acc
  | String c s' =>
      match digitValue radix c with
      | Some d => digitsFrom radix s' (acc * radix + d)
      | None => None
      end
  end.

(** One or more digits. *)
Definition digits (radix : Z) (s : string) : option Z :=
  match s with
  | EmptyString => None
  | _ => digitsFrom radix s 0
  end.

(** StrIntegerLiteral: a non-decimal literal with prefix 0x, 0o or 0b
    (either case, unsigned), or a decimal literal with an optional sign. *)
Definition strIntegerLiteral (s : string) : option Z :=
  match s with
  | String "0" (String "x" r) | String "0" (String "X" r) => digits 16 r
  | String "0" (String "o" r) | String "0" (String "O" r) => digits 8 r
  | String "0" (String "b" r) | String "0" (String "B" r) => digits 2 r
  | String "+" r => digits 10 r
  | String "-" r => option_map Z.opp (digits 10 r)
  | _ => digits 10 s
  end.

(** StringToBigInt: surrounding white space is ignored, the empty text is
    zero, anything else must be a StrIntegerLiteral. *)
Definition StringToBigInt (s : string) : option Z :=
  match trim s with
  | EmptyString => Some 0
  | t => strIntegerLiteral t
  end.

(** [BigInt(s)] for a string argument; the message is the one of V8. *)
Definition BigInt (s : string) : Error + Z :=
  match StringToBigInt s with
  | Some n => inr n
  | None => inl (SyntaxError ("Cannot convert " ++ s ++ " to a BigInt")%string)
  end.

End Js.

(** ** Data *)

(** A JSON value: remote payloads, the [quote] parameter and the [json]
    field of an output item. *)
#[local] Unset Elimination Schemes.
Inductive Json : Type :=
| JNull
| JBool (b : bool)
| JNumber (n : Z)
| JString (s : string)
| JArray (elements : list Json)
| JObject (members : list (string * Json)).
#[local] Set Elimination Schemes.

(** The surface of [@soroswap/sdk] that the node uses. *)
Module Sdk.

Inductive SupportedNetworks : Type := MAINNET | TESTNET.

Inductive TradeType : Type := EXACT_IN | EXACT_OUT.

(** The value of a member of a TypeScript enum: a string or a number. *)
Inductive EnumValue : Type :=
| EnumString (s : string)
| EnumNumber (n : Z).

(** One constructor per method of the client, with the arguments in the
    shape the node passes them.  [None] is [undefined]. *)
Inductive Call : Type :=
| getProtocols (network : SupportedNetworks)
| quote (assetIn assetOut : string) (amount : Z) (tradeType : TradeType)
        (protocols : list (option EnumValue)) (network : SupportedNetworks)
| build (quoteJson : Json) (from to : option string)
        (network : SupportedNetworks)
| send (xdr : string) (launchtube : bool) (network : SupportedNetworks)
| getPools (network : SupportedNetworks) (protocols : list string)
| getPoolByTokens (assetA assetB : string) (network : SupportedNetworks)
                  (protocols : list string)
| addLiquidity (assetA assetB : string) (amountA amountB : Z) (to : string)
               (network : SupportedNetworks)
| removeLiquidity (assetA assetB : string) (liquidity amountA amountB : Z)
                  (to : string) (network : SupportedNetworks)
| getUserPositions (address : string) (network : SupportedNetworks)
| getAssetList (assetList : option EnumValue)
| getPrice (assets : string + list string) (network : SupportedNetworks)
| getContractAddress (network : SupportedNetworks) (contractName : string).

(** Constructor argument of the client. *)
Record Config : Type := { apiKey : string; baseUrl : string }.

End Sdk.

(** The node parameters of one item, each with the type the source casts
    it to: [Param.f (nodeParameters this i)] is the value configured for
    the parameter [f] of item [i]. *)
Module Param.

Record NodeParameters : Type := {
  operation : string;
  network : string;
  assetIn : string;
  assetOut : string;
  amount : string;
  tradeType : string;
  protocols : list string;
  quote : Json;
  from : string;
  to : string;
  xdr : string;
  launchtube : bool;
  assetA : string;
  assetB : string;
  amountA : string;
  amountB : string;
  liquidity : string;
  address : string;
  assetListName : string;
  assets : string;
  contractName : string
}.

(** The [default] of every entry of [description.properties]. *)
Definition defaults : NodeParameters := {|
  operation := "getProtocols";
  network := "MAINNET";
  assetIn := EmptyString;
  assetOut := EmptyString;
  amount := EmptyString;
  tradeType := "EXACT_IN";
  protocols := ["SOROSWAP"];
  quote := JString "{}";
  from := EmptyString;
  to := EmptyString;
  xdr := EmptyString;
  launchtube := false;
  assetA := EmptyString;
  assetB := EmptyString;
  amountA := EmptyString;
  amountB := EmptyString;
  liquidity := EmptyString;
  address := EmptyString;
  assetListName := EmptyString;
  assets := EmptyString;
  contractName := "factory"
|}.

(** The parameters [p] with the string-typed entry [name] set to [value]
    (any other name leaves [p] as it is). *)
Definition setString (name value : string) (p : NodeParameters)
  : NodeParameters :=
  let pick (field : string) (old : string) :=
    if (name =? field)%string then value else old in
  {|
    operation := pick "operation" (operation p);
    network := pick "network" (network p);
    assetIn := pick "assetIn" (assetIn p);
    assetOut := pick "assetOut" (assetOut p);
    amount := pick "amount" (amount p);
    tradeType := pick "tradeType" (tradeType p);
    protocols := protocols p;
    quote := quote p;
    from := pick "from" (from p);
    to := pick "to" (to p);
    xdr := pick "xdr" (xdr p);
    launchtube := launchtube p;
    assetA := pick "assetA" (assetA p);
    assetB := pick "assetB" (assetB p);
    amountA := pick "amountA" (amountA p);
    amountB := pick "amountB" (amountB p);
    liquidity := pick "liquidity" (liquidity p);
    address := pick "address" (address p);
    assetListName := pick "assetListName" (assetListName p);
    assets := pick "assets" (assets p);
    contractName := pick "contractName" (contractName p)
  |}.

(** The parameters [p] with the multi-option entry [protocols] set. *)
Definition setProtocols (value : list string) (p : NodeParameters)
  : NodeParameters :=
  {|
    operation := operation p;
    network := network p;
    assetIn := assetIn p;
    assetOut := assetOut p;
    amount := amount p;
    tradeType := tradeType p;
    protocols := value;
    quote := quote p;
    from := from p;
    to := to p;
    xdr := xdr p;
    launchtube := launchtube p;
    assetA := assetA p;
    assetB := assetB p;
    amountA := amountA p;
    amountB := amountB p;
    liquidity := liquidity p;
    address := address p;
    assetListName := assetListName p;
    assets := assets p;
    contractName := contractName p
  |}.

(** A parameter value as the host stores it. *)
Inductive Value : Type :=
| VString (s : string)
| VStrings (l : list string)
| VBoolean (b : bool)
| VJson (j : Json).

(** The entry called [name], if the node declares one. *)
Definition get (name : string) (p : NodeParameters) : option Value :=
  if (name =? "operation")%string then Some (VString (operation p))
  else if (name =? "network")%string then Some (VString (network p))
  else if (name =? "assetIn")%string then Some (VString (assetIn p))
  else if (name =? "assetOut")%string then Some (VString (assetOut p))
  else if (name =? "amount")%string then Some (VString (amount p))
  else if (name =? "tradeType")%string then Some (VString (tradeType p))
  else if (name =? "protocols")%string then Some (VStrings (protocols p))
  else if (name =? "quote")%string then Some (VJson (quote p))
  else if (name =? "from")%string then Some (VString (from p))
  else if (name =? "to")%string then Some (VString (to p))
  else if (name =? "xdr")%string then Some (VString (xdr p))
  else if (name =? "launchtube")%string then Some (VBoolean (launchtube p))
  else if (name =? "assetA")%string then Some (VString (assetA p))
  else if (name =? "assetB")%string then Some (VString (assetB p))
  else if (name =? "amountA")%string then Some (VString (amountA p))
  else if (name =? "amountB")%string then Some (VString (amountB p))
  else if (name =? "liquidity")%string then Some (VString (liquidity p))
  else if (name =? "address")%string then Some (VString (address p))
  else if (name =? "assetListName")%string
       then Some (VString (assetListName p))
  else if (name =? "assets")%string then Some (VString (assets p))
  else if (name =? "contractName")%string
       then Some (VString (contractName p))
  else None.

End Param.

(** The names of the parameters, each with the type of its value. *)
Module Key.

Inductive t : Type -> Type :=
| operation : t string
| network : t string
| assetIn : t string
| assetOut : t string
| amount : t string
| tradeType : t string
| protocols : t (list string)
| quote : t Json
| from : t string
| to : t string
| xdr : t string
| launchtube : t bool
| assetA : t string
| assetB : t string
| amountA : t string
| amountB : t string
| liquidity : t string
| address : t string
| assetListName : t string
| assets : t string
| contractName : t string.

Definition name {A : Type} (key : t A) : string :=
  match key with
  | operation => "operation"
  | network => "network"
  | assetIn => "assetIn"
  | assetOut => "assetOut"
  | amount => "amount"
  | tradeType => "tradeType"
  | protocols => "protocols"
  | quote => "quote"
  | from => "from"
  | to => "to"
  | xdr => "xdr"
  | launchtube => "launchtube"
  | assetA => "assetA"
  | assetB => "assetB"
  | amountA => "amountA"
  | amountB => "amountB"
  | liquidity => "liquidity"
  | address => "address"
  | assetListName => "assetListName"
  | assets => "assets"
  | contractName => "contractName"
  end.

Definition value {A : Type} (key : t A) (p : Param.NodeParameters) : A :=
  match key in t A return A with
  | operation => Param.operation p
  | network => Param.network p
  | assetIn => Param.assetIn p
  | assetOut => Param.assetOut p
  | amount => Param.amount p
  | tradeType => Param.tradeType p
  | protocols => Param.protocols p
  | quote => Param.quote p
  | from => Param.from p
  | to => Param.to p
  | xdr => Param.xdr p
  | launchtube => Param.launchtube p
  | assetA => Param.assetA p
  | assetB => Param.assetB p
  | amountA => Param.amountA p
  | amountB => Param.amountB p
  | liquidity => Param.liquidity p
  | address => Param.address p
  | assetListName => Param.assetListName p
  | assets => Param.assets p
  | contractName => Param.contractName p
  end.

End Key.

(** The twelve [value]s of the [operation] option list. *)
Definition operations : list string :=
  ["addLiquidity"; "build"; "getAssetList"; "getPrice"; "getContractAddress";
   "getPoolByTokens"; "getPools"; "getProtocols"; "quote";
   "getUserPositions"; "removeLiquidity"; "send"].

(** The entries of [description.properties] other than [operation]: the
    name, the type, the default, the [required] flag, the values of the
    option list, and the operations of [displayOptions.show] ([None] when
    the entry has no [displayOptions]).  Display names and descriptions
    are left out. *)
Module Description.

Inductive PropertyType : Type :=
| TypeOptions
| TypeMultiOptions
| TypeString
| TypeJson
| TypeBoolean.

Record INodeProperties : Type := {
  name : string;
  type : PropertyType;
  default : Param.Value;
  required : bool;
  options : list string;
  showOperation : option (list string)
}.

Definition stringProperty (name : string) (required : bool)
    (show : list string) : INodeProperties :=
  {| name := name; type := TypeString; default := Param.VString EmptyString;
     required := required; options := []; showOperation := Some show |}.

Definition properties : list INodeProperties :=
  [ {| name := "operation"; type := TypeOptions;
       default := Param.VString "getProtocols"; required := false;
       options := operations; showOperation := None |};
    {| name := "network"; type := TypeOptions;
       default := Param.VString "MAINNET"; required := false;
       options := ["MAINNET"; "TESTNET"]; showOperation := None |};
    stringProperty "assetIn" true ["quote"];
    stringProperty "assetOut" true ["quote"];
    stringProperty "amount" true ["quote"];
    {| name := "tradeType"; type := TypeOptions;
       default := Param.VString "EXACT_IN"; required := false;
       options := ["EXACT_IN"; "EXACT_OUT"];
       showOperation := Some ["quote"] |};
    {| name := "protocols"; type := TypeMultiOptions;
       default := Param.VStrings ["SOROSWAP"]; required := false;
       options := ["SOROSWAP"; "PHOENIX"; "AQUA"; "SDEX"];
       showOperation := Some ["quote"; "getPools"; "getPoolByTokens"] |};
    {| name := "quote"; type := TypeJson;
       default := Param.VJson (JString "{}"); required := true;
       options := []; showOperation := Some ["build"] |};
    stringProperty "from" false ["build"];
    stringProperty "to" false ["build"];
    stringProperty "xdr" true ["send"];
    {| name := "launchtube"; type := TypeBoolean;
       default := Param.VBoolean false; required := false;
       options := []; showOperation := Some ["send"] |};
    stringProperty "assetA" true
      ["getPoolByTokens"; "addLiquidity"; "removeLiquidity"];
    stringProperty "assetB" true
      ["getPoolByTokens"; "addLiquidity"; "removeLiquidity"];
    stringProperty "amountA" true ["addLiquidity"];
    stringProperty "amountB" true ["addLiquidity"];
    stringProperty "liquidity" true ["removeLiquidity"];
    stringProperty "address" true ["getUserPositions"];
    {| name := "assetListName"; type := TypeOptions;
       default := Param.VString EmptyString; required := false;
       options := [EmptyString; "AQUA"; "LOBSTR"; "SOROSWAP"; "STELLAR_EXPERT"];
       showOperation := Some ["getAssetList"] |};
    stringProperty "assets" true ["getPrice"];
    {| name := "contractName"; type := TypeOptions;
       default := Param.VString "factory"; required := false;
       options := ["factory"; "router"; "aggregator"];
       showOperation := Some ["getContractAddress"] |} ].

(** The entry is displayed when the node is set to [operation]. *)
Definition displayedFor (operation : string) (property : INodeProperties)
  : bool :=
  match showOperation property with
  | None => true
  | Some show => existsb (String.eqb operation) show
  end.

Definition find (name' : string) : option INodeProperties :=
  List.find (fun property => (name property =? name')%string) properties.

End Description.

(** The names passed to [getNodeParameter] inside the [case] of an
    operation, in the order of the calls ([operation] and [network] are
    read before the [switch], for every item). *)
Definition parametersRead (operation : string) : list string :=
  if (operation =? "getProtocols")%string then []
  else if (operation =? "quote")%string then
    ["assetIn"; "assetOut"; "amount"; "tradeType"; "protocols"]
  else if (operation =? "build")%string then ["quote"; "from"; "to"]
  else if (operation =? "send")%string then ["xdr"; "launchtube"]
  else if (operation =? "getPools")%string then ["protocols"]
  else if (operation =? "getPoolByTokens")%string then
    ["assetA"; "assetB"; "protocols"]
  else if (operation =? "addLiquidity")%string then
    ["assetA"; "assetB"; "amountA"; "amountB"; "to"]
  else if (operation =? "removeLiquidity")%string then
    ["assetA"; "assetB"; "liquidity"; "to"]
  else if (operation =? "getUserPositions")%string then ["address"]
  else if (operation =? "getAssetList")%string then ["assetListName"]
  else if (operation =? "getPrice")%string then ["assets"]
  else if (operation =? "getContractAddress")%string then ["contractName"]
  else [].

(** One element of the output ([INodeExecutionData]): the [json] payload,
    the [error] when the item failed, and the index of the input item it
    is paired with. *)
Record INodeExecutionData : Type := {
  json : Json;
  error : option Js.Error;
  pairedItem : nat
}.

(** The host ([this] inside [execute]).  [nodeParameters i] holds the
    values configured for item [i]; the host hands them out through
    [getNodeParameter] below. *)
Record IExecuteFunctions : Type := {
  getInputData : list Json;
  getCredentials : string -> Js.Error + Sdk.Config;
  nodeParameters : nat -> Param.NodeParameters;
  continueOnFail : bool
}.

(** A result is a Success when it carries no [error], a Failure when it
    does. *)
Definition isSuccess (r : INodeExecutionData) : bool :=
  match error r with None => true | Some _ => false end.

Definition isFailure (r : INodeExecutionData) : bool :=
  negb (isSuccess r).

(** The parameter [name] belongs to an item whose operation is
    [operation]: it is declared, and its [displayOptions] admit the
    operation.  The host drops every other parameter from the item. *)
Definition displayed (name operation : string) : bool :=
  match Description.find name with
  | Some property => Description.displayedFor operation property
  | None => false
  end.

(** [this.getNodeParameter(name, itemIndex)], without a fallback value:
    the host (n8n, not part of this repository) returns the value kept for
    the item, and throws "Could not get parameter" when it keeps none,
    which is the case of a parameter that is not displayed for the item's
    operation. *)
Definition getNodeParameter {A : Type} (this : IExecuteFunctions)
    (key : Key.t A) (itemIndex : nat) : Js.Error + A :=
  let p := nodeParameters this itemIndex in
  if displayed (Key.name key) (Param.operation p)
  then inr (Key.value key p)
  else inl (Js.SdkError "Could not get parameter").

(** The same host with the run-level flag set to [flag]. *)
Definition withContinueOnFail (flag : bool) (this : IExecuteFunctions)
  : IExecuteFunctions :=
  {| getInputData := getInputData this;
     getCredentials := getCredentials this;
     nodeParameters := nodeParameters this;
     continueOnFail := flag |}.

(** ** Stand-ins for the host and the remote client

    Concrete instances on which the dispatcher can be run.  The remote
    system is the log of the calls it received; the client accepts every
    call except the submission of an empty transaction. *)

Module Sample.

Definition World : Type := list Sdk.Call.

Definition SoroswapSDK (config : Sdk.Config) (call : Sdk.Call) (log : World)
  : (Js.Error + Json) * World :=
  match call with
  | Sdk.send EmptyString _ _ =>
      (inl (Js.SdkError "Bad Request"), log ++ [call])
  | _ => (inr (JString "ok"), log ++ [call])
  end.

(** Enum tables in the shape of a TypeScript string enum. *)
Definition SupportedProtocols (key : string) : option Sdk.EnumValue :=
  if existsb (String.eqb key) ["SOROSWAP"; "PHOENIX"; "AQUA"; "SDEX"]
  then Some (Sdk.EnumString (Js.toLowerCase key)) else None.

Definition SupportedAssetLists (key : string) : option Sdk.EnumValue :=
  if existsb (String.eqb key) ["SOROSWAP"; "STELLAR_EXPERT"; "LOBSTR"; "AQUA"]
  then Some (Sdk.EnumString ("https://lists.example/" ++ Js.toLowerCase key)%string)
  else None.

Definition credentials : Sdk.Config :=
  {| Sdk.apiKey := "sk_test"; Sdk.baseUrl := "https://api.soroswap.finance" |}.

(** A host with one input item per element of [params]. *)
Definition host (flag : bool) (params : list Param.NodeParameters)
  : IExecuteFunctions :=
  {| getInputData := map (fun _ => JObject []) params;
     getCredentials := fun _ => inr credentials;
     nodeParameters := fun itemIndex => nth itemIndex params Param.defaults;
     continueOnFail := flag |}.

(** An item with the given operation and every other parameter at its
    default. *)
Definition item (operation : string) : Param.NodeParameters :=
  Param.setString "operation" operation Param.defaults.

End Sample.

(** ** The dispatcher *)

Section Dispatcher.

(** The state of the remote system. *)
Variable World : Type.

(** The enum objects [SupportedProtocols] and [SupportedAssetLists] of the
    client library, read as [Enum[key]]: the value of the member, or
    [undefined]. *)
Variable SupportedProtocols : string -> option Sdk.EnumValue.
Variable SupportedAssetLists : string -> option Sdk.EnumValue.

(** A computation that may throw and may change the remote system. *)
Definition Eff (A : Type) : Type := World -> (Js.Error + A) * World.

(** [new SoroswapSDK(config)] and a method call on it. *)
Variable SoroswapSDK : Sdk.Config -> Sdk.Call -> Eff Json.

Definition ret {A : Type} (a : A) : Eff A := fun w => (inr a, w).

Definition throw {A : Type} (e : Js.Error) : Eff A := fun w => (inl e, w).

Definition bind {A B : Type} (m : Eff A) (k : A -> Eff B) : Eff B :=
  fun w =>
    match m w with
    | (inr a, w') => k a w'
    | (inl e, w') => (inl e, w')
    end.

(** A pure step that may throw. *)
Definition lift {A : Type} (r : Js.Error + A) : Eff A := fun w => (r, w).

Definition tryCatch {A : Type} (body : Eff A) (handler : Js.Error -> Eff A)
  : Eff A :=
  fun w =>
    match body w with
    | (inr a, w') => (inr a, w')
    | (inl e, w') => handler e w'
    end.

Notation "x <- m ;; k" := (bind m (fun x => k))
  (at level 100, m at next level, right associativity).

(** [networkParam === 'MAINNET' ? MAINNET : TESTNET] *)
Definition resolveNetwork (networkParam : string) : Sdk.SupportedNetworks :=
  if (networkParam =? "MAINNET")%string then Sdk.MAINNET else Sdk.TESTNET.

(** [tradeTypeParam === 'EXACT_IN' ? EXACT_IN : EXACT_OUT] *)
Definition resolveTradeType (tradeTypeParam : string) : Sdk.TradeType :=
  if (tradeTypeParam =? "EXACT_IN")%string then Sdk.EXACT_IN else Sdk.EXACT_OUT.

(** [s || undefined] *)
Definition orUndefined (s : string) : option string :=
  if Js.truthy s then Some s else None.

(** The statements of the [try] block up to and including the assignment
    of [result]: the reads of [operation] and [network] and the [switch]
    over the operation.  Every [read key] is one call of
    [this.getNodeParameter], in the order of the source. *)
Definition switchOperation (this : IExecuteFunctions) (sdk : Sdk.Call -> Eff Json)
    (itemIndex : nat) : Eff Json :=
  let read {A : Type} (key : Key.t A) : Eff A :=
    lift (getNodeParameter this key itemIndex) in
  operation <- read Key.operation ;;
  networkParam <- read Key.network ;;
  let network := resolveNetwork networkParam in
  if (operation =? "getProtocols")%string then
    sdk (Sdk.getProtocols network)
  else if (operation =? "quote")%string then
    assetIn <- read Key.assetIn ;;
    assetOut <- read Key.assetOut ;;
    amount <- read Key.amount ;;
    tradeTypeParam <- read Key.tradeType ;;
    let tradeType := resolveTradeType tradeTypeParam in
    protocolsParam <- read Key.protocols ;;
    let protocols := map SupportedProtocols protocolsParam in
    amount' <- lift (Js.BigInt amount) ;;
    sdk (Sdk.quote assetIn assetOut amount' tradeType protocols network)
  else if (operation =? "build")%string then
    quote <- read Key.quote ;;
    from <- read Key.from ;;
    to <- read Key.to ;;
    sdk (Sdk.build quote (orUndefined from) (orUndefined to) network)
  else if (operation =? "send")%string then
    xdr <- read Key.xdr ;;
    launchtube <- read Key.launchtube ;;
    sdk (Sdk.send xdr launchtube network)
  else if (operation =? "getPools")%string then
    poolProtocolsParam <- read Key.protocols ;;
    let poolProtocols := map Js.toLowerCase poolProtocolsParam in
    sdk (Sdk.getPools network poolProtocols)
  else if (operation =? "getPoolByTokens")%string then
    assetA <- read Key.assetA ;;
    assetB <- read Key.assetB ;;
    poolTokenProtocolsParam <- read Key.protocols ;;
    let poolTokenProtocols := map Js.toLowerCase poolTokenProtocolsParam in
    sdk (Sdk.getPoolByTokens assetA assetB network poolTokenProtocols)
  else if (operation =? "addLiquidity")%string then
    addAssetA <- read Key.assetA ;;
    addAssetB <- read Key.assetB ;;
    amountA <- read Key.amountA ;;
    amountB <- read Key.amountB ;;
    addTo <- read Key.to ;;
    amountA' <- lift (Js.BigInt amountA) ;;
    amountB' <- lift (Js.BigInt amountB) ;;
    sdk (Sdk.addLiquidity addAssetA addAssetB amountA' amountB' addTo network)
  else if (operation =? "removeLiquidity")%string then
    removeAssetA <- read Key.assetA ;;
    removeAssetB <- read Key.assetB ;;
    liquidity <- read Key.liquidity ;;
    removeTo <- read Key.to ;;
    liquidity' <- lift (Js.BigInt liquidity) ;;
    sdk (Sdk.removeLiquidity removeAssetA removeAssetB liquidity' 0 0
           removeTo network)
  else if (operation =? "getUserPositions")%string then
    address <- read Key.address ;;
    sdk (Sdk.getUserPositions address network)
  else if (operation =? "getAssetList")%string then
    assetListName <- read Key.assetListName ;;
    let assetListValue :=
      if Js.truthy assetListName then SupportedAssetLists assetListName
      else None in
    sdk (Sdk.getAssetList assetListValue)
  else if (operation =? "getPrice")%string then
    assetsParam <- read Key.assets ;;
    let assetsList := map Js.trim (Js.split "," assetsParam) in
    sdk (Sdk.getPrice
           (match assetsList with
            | [single] => inl single
            | _ => inr assetsList
            end) network)
  else if (operation =? "getContractAddress")%string then
    contractName <- read Key.contractName ;;
    sdk (Sdk.getContractAddress network contractName)
  else
    throw (Js.NodeOperationError ("Unknown operation: " ++ operation)%string
             itemIndex).

Arguments switchOperation : simpl never.

(** What [returnData.push] appends on success and on failure. *)
Definition successItem (result : Json) (itemIndex : nat) : INodeExecutionData :=
  {| json := result; error := None; pairedItem := itemIndex |}.

Definition failureItem (e : Js.Error) (itemIndex : nat) : INodeExecutionData :=
  {| json := JObject [("error", JString (Js.message e))];
     error := Some e;
     pairedItem := itemIndex |}.

(** One iteration of the [for] loop: the [try] block and its [catch]. *)
Definition loopBody (this : IExecuteFunctions) (sdk : Sdk.Call -> Eff Json)
    (itemIndex : nat) (returnData : list INodeExecutionData)
  : Eff (list INodeExecutionData) :=
  tryCatch
    (result <- switchOperation this sdk itemIndex ;;
     ret (returnData ++ [successItem result itemIndex]))
    (fun e =>
       if continueOnFail this then
         ret (returnData ++ [failureItem e itemIndex])
       else
         throw (Js.NodeOperationError (Js.message e) itemIndex)).

(** The [for] loop, with [remaining = items.length - itemIndex]. *)
Fixpoint forLoop (this : IExecuteFunctions) (sdk : Sdk.Call -> Eff Json)
    (remaining itemIndex : nat) (returnData : list INodeExecutionData)
  : Eff (list INodeExecutionData) :=
  match remaining with
  | O => ret returnData
  | S remaining' =>
      returnData' <- loopBody this sdk itemIndex returnData ;;
      forLoop this sdk remaining' (S itemIndex) returnData'
  end.

(** [Soroswap.execute] *)
Definition execute (this : IExecuteFunctions)
  : Eff (list (list INodeExecutionData)) :=
  let items := getInputData this in
  credentials <- lift (getCredentials this "soroswapApi") ;;
  let sdk := SoroswapSDK {| Sdk.apiKey := Sdk.apiKey credentials;
                            Sdk.baseUrl := Sdk.baseUrl credentials |} in
  returnData <- forLoop this sdk (length items) 0%nat [] ;;
  ret [returnData].

(** *** The run under continue-on-failure, item by item *)

(** The record an item leaves in the output: a Success with the payload
    or a Failure with the error, paired with the item's index. *)
Definition resultOf (itemIndex : nat) (r : Js.Error + Json)
  : INodeExecutionData :=
  match r with
  | inr result => successItem result itemIndex
  | inl e => failureItem e itemIndex
  end.

(** The records of [remaining] consecutive items from [itemIndex] on. *)
Fixpoint runResults (this : IExecuteFunctions) (sdk : Sdk.Call -> Eff Json)
    (remaining itemIndex : nat) (w : World) : list INodeExecutionData :=
  match remaining with
  | O => []
  | S remaining' =>
      let (r, w') := switchOperation this sdk itemIndex w in
      resultOf itemIndex r :: runResults this sdk remaining' (S itemIndex) w'
  end.

(** The remote system after those items. *)
Fixpoint runWorld (this : IExecuteFunctions) (sdk : Sdk.Call -> Eff Json)
    (remaining itemIndex : nat) (w : World) : World :=
  match remaining with
  | O => w
  | S remaining' =>
      runWorld this sdk remaining' (S itemIndex)
        (snd (switchOperation this sdk itemIndex w))
  end.

(** ** Properties of the loop *)

Lemma withContinueOnFail_switch (flag : bool) (this : IExecuteFunctions)
    (sdk : Sdk.Call -> Eff Json) (itemIndex : nat) (w : World) :
  switchOperation (withContinueOnFail flag this) sdk itemIndex w
  = switchOperation this sdk itemIndex w.
Proof. reflexivity. Qed.

(** With the flag set, an iteration never throws: it appends the record
    of its item. *)
Lemma loopBody_continue (this : IExecuteFunctions) (sdk : Sdk.Call -> Eff Json)
    (itemIndex : nat) (returnData : list INodeExecutionData) (w : World) :
  continueOnFail this = true ->
  loopBody this sdk itemIndex returnData w
  = (inr (returnData
          ++ [resultOf itemIndex (fst (switchOperation this sdk itemIndex w))]),
     snd (switchOperation this sdk itemIndex w)).
Proof.
  intros Hflag. unfold loopBody, tryCatch, bind, ret.
  destruct (switchOperation this sdk itemIndex w) as [[e | result] w'];
    cbn [fst snd resultOf].
  - rewrite Hflag. reflexivity.
  - reflexivity.
Qed.

(** With the flag unset, an iteration appends on success and rethrows on
    failure. *)
Lemma loopBody_failFast (this : IExecuteFunctions) (sdk : Sdk.Call -> Eff Json)
    (itemIndex : nat) (returnData : list INodeExecutionData) (w : World) :
  continueOnFail this = false ->
  loopBody this sdk itemIndex returnData w
  = match switchOperation this sdk itemIndex w with
    | (inr result, w') =>
        (inr (returnData ++ [successItem result itemIndex]), w')
    | (inl e, w') =>
        (inl (Js.NodeOperationError (Js.message e) itemIndex), w')
    end.
Proof.
  intros Hflag. unfold loopBody, tryCatch, bind, ret, throw.
  destruct (switchOperation this sdk itemIndex w) as [[e | result] w'].
  - rewrite Hflag. reflexivity.
  - reflexivity.
Qed.

Lemma forLoop_continue (this : IExecuteFunctions) (sdk : Sdk.Call -> Eff Json) :
  continueOnFail this = true ->
  forall (remaining itemIndex : nat) (returnData : list INodeExecutionData)
         (w : World),
    forLoop this sdk remaining itemIndex returnData w
    = (inr (returnData ++ runResults this sdk remaining itemIndex w),
       runWorld this sdk remaining itemIndex w).
Proof.
  intros Hflag remaining.
  induction remaining as [| remaining IH]; intros itemIndex returnData w.
  - cbn. unfold ret. now rewrite app_nil_r.
  - cbn [forLoop runResults runWorld]. unfold bind at 1.
    rewrite loopBody_continue by assumption. rewrite IH.
    destruct (switchOperation this sdk itemIndex w) as [r w'].
    cbn [fst snd]. now rewrite <- app_assoc.
Qed.

Lemma runResults_length (this : IExecuteFunctions) (sdk : Sdk.Call -> Eff Json)
    (remaining itemIndex : nat) (w : World) :
  length (runResults this sdk remaining itemIndex w) = remaining.
Proof.
  revert itemIndex w.
  induction remaining as [| remaining IH]; intros itemIndex w; cbn.
  - reflexivity.
  - destruct (switchOperation this sdk itemIndex w) as [r w'].
    cbn. now rewrite IH.
Qed.

Lemma runResults_nth (this : IExecuteFunctions) (sdk : Sdk.Call -> Eff Json)
    (remaining : nat) :
  forall (itemIndex : nat) (w : World) (j : nat),
    (j < remaining)%nat ->
    nth_error (runResults this sdk remaining itemIndex w) j
    = Some (resultOf (itemIndex + j)
              (fst (switchOperation this sdk (itemIndex + j)
                      (runWorld this sdk j itemIndex w)))).
Proof.
  induction remaining as [| remaining IH]; intros itemIndex w j Hj.
  - lia.
  - cbn [runResults].
    destruct (switchOperation this sdk itemIndex w) as [r w'] eqn:Hsw.
    destruct j as [| j].
    + cbn [nth_error runWorld]. rewrite Nat.add_0_r, Hsw. reflexivity.
    + cbn [nth_error runWorld]. rewrite Hsw. cbn [snd].
      rewrite IH by lia. now rewrite Nat.add_succ_comm.
Qed.

Lemma pairedItem_resultOf (itemIndex : nat) (r : Js.Error + Json) :
  pairedItem (resultOf itemIndex r) = itemIndex.
Proof. now destruct r. Qed.

(** The whole run with the flag set. *)
Lemma execute_continue (this : IExecuteFunctions) (creds : Sdk.Config)
    (w : World) :
  continueOnFail this = true ->
  getCredentials this "soroswapApi" = inr creds ->
  execute this w
  = (inr [runResults this (SoroswapSDK creds)
            (length (getInputData this)) 0%nat w],
     runWorld this (SoroswapSDK creds) (length (getInputData this)) 0%nat w).
Proof.
  intros Hflag Hcreds. unfold execute, bind at 1, lift.
  rewrite Hcreds. destruct creds as [apiKey baseUrl]. cbn [Sdk.apiKey Sdk.baseUrl].
  unfold bind, ret. now rewrite forLoop_continue.
Qed.

(** ** The [switch], one operation at a time *)

(** The reads of [operation] and [network] succeed for every item: both
    parameters are declared without [displayOptions]. *)
Ltac open_switch :=
  unfold switchOperation, getNodeParameter, bind, lift; cbv beta zeta;
  cbn [Key.name Key.value];
  repeat match goal with
    | |- context [displayed "operation" ?o] =>
        change (displayed "operation" o) with true
    | |- context [displayed "network" ?o] =>
        change (displayed "network" o) with true
    end;
  cbv beta iota.

(** Once the operation is known, whether a parameter is displayed for it
    is a computation. *)
Ltac eval_displayed :=
  repeat match goal with
    | |- context [displayed ?n ?o] =>
        let v := eval vm_compute in (displayed n o) in
        change (displayed n o) with v
    end;
  cbv beta iota.

Ltac eval_eqb :=
  repeat match goal with
    | |- context [String.eqb ?a ?b] =>
        let v := eval vm_compute in (String.eqb a b) in
        change (String.eqb a b) with v
    end;
  cbv beta iota.

Ltac switch_on Hop :=
  open_switch; rewrite ?Hop; eval_eqb; eval_displayed.

Section Switch.

Variable this : IExecuteFunctions.
Variable sdk : Sdk.Call -> Eff Json.
Variable itemIndex : nat.
Variable w : World.

Local Abbreviation p := (nodeParameters this itemIndex).
Local Abbreviation network := (resolveNetwork (Param.network p)).

Lemma switch_getProtocols :
  Param.operation p = "getProtocols" ->
  switchOperation this sdk itemIndex w = sdk (Sdk.getProtocols network) w.
Proof. intros Hop. now switch_on Hop. Qed.

Lemma switch_quote :
  Param.operation p = "quote" ->
  switchOperation this sdk itemIndex w
  = match Js.BigInt (Param.amount p) with
    | inr amount =>
        sdk (Sdk.quote (Param.assetIn p) (Param.assetOut p) amount
               (resolveTradeType (Param.tradeType p))
               (map SupportedProtocols (Param.protocols p)) network) w
    | inl e => (inl e, w)
    end.
Proof.
  intros Hop. switch_on Hop. now destruct (Js.BigInt _).
Qed.

Lemma switch_build :
  Param.operation p = "build" ->
  switchOperation this sdk itemIndex w
  = sdk (Sdk.build (Param.quote p) (orUndefined (Param.from p))
           (orUndefined (Param.to p)) network) w.
Proof. intros Hop. now switch_on Hop. Qed.

Lemma switch_send :
  Param.operation p = "send" ->
  switchOperation this sdk itemIndex w
  = sdk (Sdk.send (Param.xdr p) (Param.launchtube p) network) w.
Proof. intros Hop. now switch_on Hop. Qed.

Lemma switch_getPools :
  Param.operation p = "getPools" ->
  switchOperation this sdk itemIndex w
  = sdk (Sdk.getPools network (map Js.toLowerCase (Param.protocols p))) w.
Proof. intros Hop. now switch_on Hop. Qed.

Lemma switch_getPoolByTokens :
  Param.operation p = "getPoolByTokens" ->
  switchOperation this sdk itemIndex w
  = sdk (Sdk.getPoolByTokens (Param.assetA p) (Param.assetB p) network
           (map Js.toLowerCase (Param.protocols p))) w.
Proof. intros Hop. now switch_on Hop. Qed.

(** The [addLiquidity] and [removeLiquidity] cases read [to], which the
    description displays for [build] only: the read throws, before
    [BigInt] and before the remote call. *)
Lemma switch_addLiquidity :
  Param.operation p = "addLiquidity" ->
  switchOperation this sdk itemIndex w
  = (inl (Js.SdkError "Could not get parameter"), w).
Proof. intros Hop. now switch_on Hop. Qed.

Lemma switch_removeLiquidity :
  Param.operation p = "removeLiquidity" ->
  switchOperation this sdk itemIndex w
  = (inl (Js.SdkError "Could not get parameter"), w).
Proof. intros Hop. now switch_on Hop. Qed.

Lemma switch_getUserPositions :
  Param.operation p = "getUserPositions" ->
  switchOperation this sdk itemIndex w
  = sdk (Sdk.getUserPositions (Param.address p) network) w.
Proof. intros Hop. now switch_on Hop. Qed.

Lemma switch_getAssetList :
  Param.operation p = "getAssetList" ->
  switchOperation this sdk itemIndex w
  = sdk (Sdk.getAssetList
           (if Js.truthy (Param.assetListName p)
            then SupportedAssetLists (Param.assetListName p) else None)) w.
Proof. intros Hop. now switch_on Hop. Qed.

Lemma switch_getPrice :
  Param.operation p = "getPrice" ->
  switchOperation this sdk itemIndex w
  = sdk (Sdk.getPrice
           (match map Js.trim (Js.split "," (Param.assets p)) with
            | [single] => inl single
            | assetsList => inr assetsList
            end) network) w.
Proof.
  intros Hop. switch_on Hop.
  now destruct (map Js.trim _) as [| ? [| ? ?]].
Qed.

Lemma switch_getContractAddress :
  Param.operation p = "getContractAddress" ->
  switchOperation this sdk itemIndex w
  = sdk (Sdk.getContractAddress network (Param.contractName p)) w.
Proof. intros Hop. now switch_on Hop. Qed.

Lemma switch_unknown :
  ~ In (Param.operation p) operations ->
  switchOperation this sdk itemIndex w
  = (inl (Js.NodeOperationError
            ("Unknown operation: " ++ Param.operation p)%string itemIndex), w).
Proof.
  intros Hop. open_switch.
  repeat match goal with
    | |- context [if String.eqb ?a ?b then _ else _] =>
        destruct (String.eqb_spec a b) as [E | E];
        [ exfalso; apply Hop; rewrite E; cbn; tauto | clear E ]
    end.
  reflexivity.
Qed.

End Switch.

(** A read succeeds exactly when the parameter is displayed for the
    operation of the item, and then returns the configured value. *)
Lemma getNodeParameter_displayed {A : Type} (this : IExecuteFunctions)
    (key : Key.t A) (itemIndex : nat) :
  let p := nodeParameters this itemIndex in
  (displayed (Key.name key) (Param.operation p) = true ->
   getNodeParameter this key itemIndex = inr (Key.value key p)) /\
  (displayed (Key.name key) (Param.operation p) = false ->
   getNodeParameter this key itemIndex
   = inl (Js.SdkError "Could not get parameter")).
Proof.
  intros p. subst p. unfold getNodeParameter.
  split; intros ->; reflexivity.
Qed.

(** Every parameter name the dispatcher reads is declared. *)
Lemma Key_declared {A : Type} (key : Key.t A) :
  exists property : Description.INodeProperties,
    Description.find (Key.name key) = Some property /\
    Description.name property = Key.name key.
Proof. destruct key; eexists; split; reflexivity. Qed.

Lemma BigInt_error (s : string) (e : Js.Error) :
  Js.BigInt s = inl e -> exists m : string, e = Js.SyntaxError m.
Proof.
  unfold Js.BigInt. destruct (Js.StringToBigInt s); intros H.
  - discriminate.
  - injection H as <-. eauto.
Qed.

(** The fields of the record an item leaves. *)
Lemma resultOf_fields (itemIndex : nat) (r : Js.Error + Json) :
  pairedItem (resultOf itemIndex r) = itemIndex /\
  match r with
  | inr payload =>
      json (resultOf itemIndex r) = payload /\
      error (resultOf itemIndex r) = None /\
      isSuccess (resultOf itemIndex r) = true
  | inl e =>
      json (resultOf itemIndex r)
      = JObject [("error", JString (Js.message e))] /\
      error (resultOf itemIndex r) = Some e /\
      isFailure (resultOf itemIndex r) = true
  end.
Proof. destruct r; cbn; auto. Qed.

(** C1. With continue-on-failure set, a run over N input items returns N
    records.  The record at position i is paired with index i and holds
    the outcome of item i, computed against the remote system as the
    first i items left it: when the item succeeded, a Success whose json
    is the payload and which carries no error; when it failed, a Failure
    which carries the error and whose json is the error message.  This
    holds whichever items fail. *)
Theorem execute_pairing (this : IExecuteFunctions) (creds : Sdk.Config)
    (w : World) :
  continueOnFail this = true ->
  getCredentials this "soroswapApi" = inr creds ->
  exists (returnData : list INodeExecutionData) (w' : World),
    execute this w = (inr [returnData], w') /\
    length returnData = length (getInputData this) /\
    forall i : nat,
      (i < length (getInputData this))%nat ->
      exists r : INodeExecutionData,
        nth_error returnData i = Some r /\
        pairedItem r = i /\
        match
          fst (switchOperation this (SoroswapSDK creds) i
                 (snd (forLoop this (SoroswapSDK creds) i 0%nat [] w)))
        with
        | inr payload =>
            json r = payload /\ error r = None /\ isSuccess r = true
        | inl e =>
            json r = JObject [("error", JString (Js.message e))] /\
            error r = Some e /\ isFailure r = true
        end.
Proof.
  intros Hflag Hcreds.
  eexists. eexists. split; [apply execute_continue; eassumption |].
  split; [apply runResults_length |].
  intros i Hi. eexists. split; [apply runResults_nth; exact Hi |].
  cbn [Nat.add]. rewrite forLoop_continue by assumption. cbn [snd].
  apply resultOf_fields.
Qed.

(** C2. For three input items of which the first and third succeed and
    the second fails: with continue-on-failure unset the run aborts at the
    second item (the error carries index 1, no output is returned and the
    remote system is left as the second item left it, so the third item is
    never processed); with the flag set the run returns exactly three
    records: a Success with the first payload, a Failure carrying the
    error of the second item, and a Success with the third payload. *)
Theorem fail_fast_vs_continue (this : IExecuteFunctions) (creds : Sdk.Config)
    (w w1 w2 w3 : World) (ra rc : Json) (e : Js.Error) :
  length (getInputData this) = 3%nat ->
  getCredentials this "soroswapApi" = inr creds ->
  switchOperation this (SoroswapSDK creds) 0 w = (inr ra, w1) ->
  switchOperation this (SoroswapSDK creds) 1 w1 = (inl e, w2) ->
  switchOperation this (SoroswapSDK creds) 2 w2 = (inr rc, w3) ->
  execute (withContinueOnFail false this) w
  = (inl (Js.NodeOperationError (Js.message e) 1), w2)
  /\
  exists r0 r1 r2 : INodeExecutionData,
    execute (withContinueOnFail true this) w = (inr [[r0; r1; r2]], w3) /\
    (isSuccess r0 = true /\ error r0 = None /\ json r0 = ra /\
     pairedItem r0 = 0%nat) /\
    (isFailure r1 = true /\ error r1 = Some e /\
     json r1 = JObject [("error", JString (Js.message e))] /\
     pairedItem r1 = 1%nat) /\
    (isSuccess r2 = true /\ error r2 = None /\ json r2 = rc /\
     pairedItem r2 = 2%nat).
Proof.
  intros Hlen Hcreds H0 H1 H2. split.
  - unfold execute, bind at 1, lift.
    cbn [withContinueOnFail getInputData getCredentials].
    rewrite Hcreds, Hlen. destruct creds as [apiKey baseUrl].
    cbn [Sdk.apiKey Sdk.baseUrl forLoop]. unfold bind.
    rewrite !loopBody_failFast by reflexivity.
    rewrite withContinueOnFail_switch, H0.
    rewrite loopBody_failFast by reflexivity.
    rewrite withContinueOnFail_switch, H1. reflexivity.
  - do 3 eexists. split.
    + rewrite (execute_continue _ creds) by (reflexivity || assumption).
      cbn [withContinueOnFail getInputData]. rewrite Hlen.
      cbn [runResults runWorld]. rewrite !withContinueOnFail_switch.
      rewrite H0. cbn [snd]. rewrite !withContinueOnFail_switch.
      rewrite H1. cbn [snd]. rewrite !withContinueOnFail_switch.
      rewrite H2. reflexivity.
    + cbn. repeat split.
Qed.

(** C3 (amended). An item whose operation is none of the twelve makes no
    remote call and throws the NodeOperationError built from
    "Unknown operation: <identifier>" and its index.  With
    continue-on-failure set the run goes on: it returns one record per
    input item, and the record of that item is a Failure paired with its
    index, which carries this error and whose json is the error's
    message. *)
Theorem unknown_operation_failure (this : IExecuteFunctions)
    (creds : Sdk.Config) (w : World) (i : nat) :
  continueOnFail this = true ->
  getCredentials this "soroswapApi" = inr creds ->
  (i < length (getInputData this))%nat ->
  ~ In (Param.operation (nodeParameters this i)) operations ->
  let unknown :=
    Js.NodeOperationError
      ("Unknown operation: " ++ Param.operation (nodeParameters this i))%string
      i in
  (forall w0 : World,
      switchOperation this (SoroswapSDK creds) i w0 = (inl unknown, w0)) /\
  exists (returnData : list INodeExecutionData) (w' : World)
         (r : INodeExecutionData),
    execute this w = (inr [returnData], w') /\
    length returnData = length (getInputData this) /\
    nth_error returnData i = Some r /\
    pairedItem r = i /\
    error r = Some unknown /\
    json r = JObject [("error", JString (Js.message unknown))] /\
    isFailure r = true.
Proof.
  intros Hflag Hcreds Hi Hop unknown. split.
  - intros w0. now apply switch_unknown.
  - do 3 eexists. split; [apply execute_continue; eassumption |].
    split; [apply runResults_length |].
    split; [apply runResults_nth; exact Hi |].
    cbn [Nat.add]. rewrite switch_unknown by exact Hop.
    cbn. repeat split.
Qed.

(** C4.  [BigInt] turns "123456789012345678901234567890" into the integer
    of that value and rejects "abc".  For the amount of quote, the
    integer is what the remote call carries, and with continue-on-failure
    set an item whose amount is "abc" makes no remote call and becomes a
    Failure record at its own index, carrying the SyntaxError, while the
    run still returns one record per input item.  For amountA, amountB
    and liquidity the coercion is never reached: an addLiquidity or
    removeLiquidity item fails at the read of [to], whatever its amounts
    hold, and no call is made. *)
Theorem integer_coercion :
  Js.BigInt "123456789012345678901234567890"
  = inr 123456789012345678901234567890
  /\
  Js.BigInt "abc" = inl (Js.SyntaxError "Cannot convert abc to a BigInt")
  /\
  (forall (this : IExecuteFunctions) (sdk : Sdk.Call -> Eff Json) (i : nat)
          (w : World),
      let p := nodeParameters this i in
      Param.operation p = "quote" ->
      Param.amount p = "123456789012345678901234567890" ->
      switchOperation this sdk i w
      = sdk (Sdk.quote (Param.assetIn p) (Param.assetOut p)
               123456789012345678901234567890
               (resolveTradeType (Param.tradeType p))
               (map SupportedProtocols (Param.protocols p))
               (resolveNetwork (Param.network p))) w)
  /\
  (forall (this : IExecuteFunctions) (creds : Sdk.Config) (w : World)
          (i : nat),
      let p := nodeParameters this i in
      let rejected := Js.SyntaxError "Cannot convert abc to a BigInt" in
      continueOnFail this = true ->
      getCredentials this "soroswapApi" = inr creds ->
      (i < length (getInputData this))%nat ->
      Param.operation p = "quote" ->
      Param.amount p = "abc" ->
      (forall w0 : World,
          switchOperation this (SoroswapSDK creds) i w0 = (inl rejected, w0))
      /\
      exists (returnData : list INodeExecutionData) (w' : World)
             (r : INodeExecutionData),
        execute this w = (inr [returnData], w') /\
        length returnData = length (getInputData this) /\
        nth_error returnData i = Some r /\
        pairedItem r = i /\
        error r = Some rejected /\
        json r = JObject [("error", JString "Cannot convert abc to a BigInt")]
        /\ isFailure r = true)
  /\
  (forall (this : IExecuteFunctions) (sdk : Sdk.Call -> Eff Json) (i : nat)
          (w : World),
      let p := nodeParameters this i in
      Param.operation p = "addLiquidity" \/
      Param.operation p = "removeLiquidity" ->
      switchOperation this sdk i w
      = (inl (Js.SdkError "Could not get parameter"), w)).
Proof.
  assert (Hbig : Js.BigInt "123456789012345678901234567890"
                 = inr 123456789012345678901234567890) by reflexivity.
  assert (Habc : Js.BigInt "abc"
                 = inl (Js.SyntaxError "Cannot convert abc to a BigInt"))
    by reflexivity.
  split; [exact Hbig |]. split; [exact Habc |]. split; [| split].
  - intros this sdk i w p Hop Ha. subst p.
    now rewrite switch_quote, Ha, Hbig.
  - intros this creds w i p rejected Hflag Hcreds Hi Hop Ha. subst p rejected.
    assert (Hsw : forall w0 : World,
               switchOperation this (SoroswapSDK creds) i w0
               = (inl (Js.SyntaxError "Cannot convert abc to a BigInt"), w0)).
    { intros w0. now rewrite switch_quote, Ha, Habc. }
    split; [exact Hsw |].
    do 3 eexists. split; [apply execute_continue; eassumption |].
    split; [apply runResults_length |].
    split; [apply runResults_nth; exact Hi |].
    cbn [Nat.add]. rewrite Hsw. cbn. repeat split.
  - intros this sdk i w p [Hop | Hop]; subst p.
    + now apply switch_addLiquidity.
    + now apply switch_removeLiquidity.
Qed.

Lemma loopBody_success (this : IExecuteFunctions) (sdk : Sdk.Call -> Eff Json)
    (itemIndex : nat) (returnData : list INodeExecutionData) (w w' : World)
    (result : Json) :
  switchOperation this sdk itemIndex w = (inr result, w') ->
  loopBody this sdk itemIndex returnData w
  = (inr (returnData ++ [successItem result itemIndex]), w').
Proof.
  intros Hsw. unfold loopBody, tryCatch, bind, ret. now rewrite Hsw.
Qed.

(** C5 (amended). The dispatcher validates no enum-typed parameter.
    Whatever the value, inside or outside the declared set: network
    becomes TESTNET unless it is "MAINNET"; tradeType becomes EXACT_OUT
    unless it is "EXACT_IN"; each entry of protocols is replaced by the
    enum table's entry for it (undefined when there is none) for quote and
    is lower-cased for the pool operations; contractName is passed as it
    is; a non-empty assetListName is replaced by the enum table's entry
    for it (undefined when there is none).  The outcome of the item is
    then the outcome of the remote call. *)
Theorem enum_parameters_not_validated (this : IExecuteFunctions)
    (sdk : Sdk.Call -> Eff Json) (i : nat) (w : World) :
  let p := nodeParameters this i in
  let network := resolveNetwork (Param.network p) in
  (Param.network p <> "MAINNET" -> network = Sdk.TESTNET) /\
  (Param.tradeType p <> "EXACT_IN" ->
   resolveTradeType (Param.tradeType p) = Sdk.EXACT_OUT) /\
  (Param.operation p = "getProtocols" ->
   switchOperation this sdk i w = sdk (Sdk.getProtocols network) w) /\
  (Param.operation p = "quote" ->
   forall amount : Z, Js.BigInt (Param.amount p) = inr amount ->
   switchOperation this sdk i w
   = sdk (Sdk.quote (Param.assetIn p) (Param.assetOut p) amount
            (resolveTradeType (Param.tradeType p))
            (map SupportedProtocols (Param.protocols p)) network) w) /\
  (Param.operation p = "getPools" ->
   switchOperation this sdk i w
   = sdk (Sdk.getPools network (map Js.toLowerCase (Param.protocols p))) w) /\
  (Param.operation p = "getPoolByTokens" ->
   switchOperation this sdk i w
   = sdk (Sdk.getPoolByTokens (Param.assetA p) (Param.assetB p) network
            (map Js.toLowerCase (Param.protocols p))) w) /\
  (Param.operation p = "getContractAddress" ->
   switchOperation this sdk i w
   = sdk (Sdk.getContractAddress network (Param.contractName p)) w) /\
  (Param.operation p = "getAssetList" ->
   switchOperation this sdk i w
   = sdk (Sdk.getAssetList
            (if Js.truthy (Param.assetListName p)
             then SupportedAssetLists (Param.assetListName p) else None)) w).
Proof.
  intros p network. subst p network. repeat split.
  - intros Hn. unfold resolveNetwork.
    now destruct (String.eqb_spec (Param.network (nodeParameters this i))
                    "MAINNET").
  - intros Ht. unfold resolveTradeType.
    now destruct (String.eqb_spec (Param.tradeType (nodeParameters this i))
                    "EXACT_IN").
  - intros Hop. now rewrite switch_getProtocols.
  - intros Hop amount Ha. now rewrite switch_quote, Ha.
  - intros Hop. now rewrite switch_getPools.
  - intros Hop. now rewrite switch_getPoolByTokens.
  - intros Hop. now rewrite switch_getContractAddress.
  - intros Hop. now rewrite switch_getAssetList.
Qed.

(** C6. getPools and getPoolByTokens transmit every selected protocol
    lower-cased, so SOROSWAP, AQUA go out as soroswap, aqua; quote
    transmits, for every selected protocol, the enum table's value for it
    with no change of case. *)
Theorem protocol_casing (this : IExecuteFunctions)
    (sdk : Sdk.Call -> Eff Json) (i : nat) (w : World) :
  let p := nodeParameters this i in
  let network := resolveNetwork (Param.network p) in
  map Js.toLowerCase ["SOROSWAP"; "AQUA"] = ["soroswap"; "aqua"] /\
  (Param.operation p = "getPools" ->
   switchOperation this sdk i w
   = sdk (Sdk.getPools network (map Js.toLowerCase (Param.protocols p))) w) /\
  (Param.operation p = "getPoolByTokens" ->
   switchOperation this sdk i w
   = sdk (Sdk.getPoolByTokens (Param.assetA p) (Param.assetB p) network
            (map Js.toLowerCase (Param.protocols p))) w) /\
  (Param.operation p = "quote" ->
   forall amount : Z, Js.BigInt (Param.amount p) = inr amount ->
   switchOperation this sdk i w
   = sdk (Sdk.quote (Param.assetIn p) (Param.assetOut p) amount
            (resolveTradeType (Param.tradeType p))
            (map SupportedProtocols (Param.protocols p)) network) w).
Proof.
  intros p network. subst p network. repeat split.
  - intros Hop. now rewrite switch_getPools.
  - intros Hop. now rewrite switch_getPoolByTokens.
  - intros Hop amount Ha. now rewrite switch_quote, Ha.
Qed.

(** C7. getPrice splits the assets string at every comma and trims each
    segment, so "A, B ,C" gives A, B, C.  There is always at least one
    segment; when there is exactly one, that string itself is the argument
    of the remote call; when there are more, the list is. *)
Theorem getPrice_assets (this : IExecuteFunctions)
    (sdk : Sdk.Call -> Eff Json) (i : nat) (w : World) :
  let p := nodeParameters this i in
  let network := resolveNetwork (Param.network p) in
  let assetsList := map Js.trim (Js.split "," (Param.assets p)) in
  map Js.trim (Js.split "," "A, B ,C") = ["A"; "B"; "C"] /\
  (1 <= length assetsList)%nat /\
  (Param.operation p = "getPrice" ->
   (forall single : string,
       assetsList = [single] ->
       switchOperation this sdk i w = sdk (Sdk.getPrice (inl single) network) w)
   /\
   ((1 < length assetsList)%nat ->
    switchOperation this sdk i w
    = sdk (Sdk.getPrice (inr assetsList) network) w)).
Proof.
  intros p network assetsList. split; [reflexivity |]. split.
  - subst assetsList. rewrite length_map.
    destruct (Param.assets p) as [| c s']; cbn; [lia |].
    destruct (Ascii.eqb c ","); [cbn; lia |].
    destruct (Js.split "," s'); cbn; lia.
  - intros Hop. subst p network.
    rewrite switch_getPrice by assumption. fold assetsList. split.
    + intros single ->. reflexivity.
    + intros Hlen. destruct assetsList as [| a [| b l]]; cbn in Hlen;
        [lia | lia | reflexivity].
Qed.

(** C8.  What the code does with a removeLiquidity item: the case reads
    [to], which the description displays for build only, so the read
    throws "Could not get parameter" and the remote call, which the case
    would make with amountA and amountB equal to zero, is never made,
    whatever the parameters of the item hold. *)
Theorem removeLiquidity_call_never_made (this : IExecuteFunctions)
    (sdk : Sdk.Call -> Eff Json) (i : nat) (w : World) :
  Param.operation (nodeParameters this i) = "removeLiquidity" ->
  In "to" (parametersRead "removeLiquidity") /\
  displayed "to" "removeLiquidity" = false /\
  switchOperation this sdk i w
  = (inl (Js.SdkError "Could not get parameter"), w).
Proof.
  intros Hop. split; [cbn; tauto |]. split; [reflexivity |].
  now apply switch_removeLiquidity.
Qed.

(** C9. For getAssetList an empty assetListName leads to the remote call
    without a list argument, and the dispatcher adds no failure of its
    own: the item is a Success whenever that call returns.  A non-empty
    name is passed as the enum table's value for it. *)
Theorem getAssetList_selector (this : IExecuteFunctions)
    (sdk : Sdk.Call -> Eff Json) (i : nat)
    (returnData : list INodeExecutionData) (w : World) :
  let p := nodeParameters this i in
  Param.operation p = "getAssetList" ->
  (Param.assetListName p = EmptyString ->
   switchOperation this sdk i w = sdk (Sdk.getAssetList None) w /\
   forall (payload : Json) (w' : World),
     sdk (Sdk.getAssetList None) w = (inr payload, w') ->
     loopBody this sdk i returnData w
     = (inr (returnData ++ [successItem payload i]), w')) /\
  (Param.assetListName p <> EmptyString ->
   switchOperation this sdk i w
   = sdk (Sdk.getAssetList (SupportedAssetLists (Param.assetListName p))) w).
Proof.
  intros p Hop. subst p.
  pose proof (switch_getAssetList this sdk i w Hop) as Hsw. cbv zeta in Hsw.
  split.
  - intros Hname. rewrite Hname in Hsw. cbn [Js.truthy] in Hsw.
    split; [exact Hsw |].
    intros payload w' Hcall. apply loopBody_success. now rewrite Hsw.
  - intros Hname. rewrite Hsw.
    now destruct (Param.assetListName (nodeParameters this i)).
Qed.

(** C10.  [BigInt] of the empty string is zero.  For the amount of
    quote, an empty amount does not fail the item, and the remote call
    carries 0.  For amountA, amountB and liquidity the coercion is never
    reached: an addLiquidity or removeLiquidity item fails at the read of
    [to], so no call with 0 is made. *)
Theorem empty_integer_is_zero (this : IExecuteFunctions)
    (sdk : Sdk.Call -> Eff Json) (i : nat) (w : World) :
  let p := nodeParameters this i in
  let network := resolveNetwork (Param.network p) in
  Js.BigInt EmptyString = inr 0 /\
  (Param.operation p = "quote" -> Param.amount p = EmptyString ->
   switchOperation this sdk i w
   = sdk (Sdk.quote (Param.assetIn p) (Param.assetOut p) 0
            (resolveTradeType (Param.tradeType p))
            (map SupportedProtocols (Param.protocols p)) network) w) /\
  (Param.operation p = "addLiquidity" \/
   Param.operation p = "removeLiquidity" ->
   switchOperation this sdk i w
   = (inl (Js.SdkError "Could not get parameter"), w)).
Proof.
  intros p network. subst p network.
  assert (Hempty : Js.BigInt EmptyString = inr 0) by reflexivity.
  split; [exact Hempty |]. split.
  - intros Hop Ha. now rewrite switch_quote, Ha, Hempty.
  - intros [Hop | Hop].
    + now apply switch_addLiquidity.
    + now apply switch_removeLiquidity.
Qed.

(** ** Further properties of the loop *)

(** An iteration that does not throw has appended exactly one record,
    paired with its item; without the flag that record is a Success. *)
Lemma loopBody_appends (this : IExecuteFunctions) (sdk : Sdk.Call -> Eff Json)
    (itemIndex : nat) (returnData returnData' : list INodeExecutionData)
    (w w' : World) :
  loopBody this sdk itemIndex returnData w = (inr returnData', w') ->
  exists x : INodeExecutionData,
    returnData' = returnData ++ [x] /\
    pairedItem x = itemIndex /\
    (continueOnFail this = false -> isSuccess x = true).
Proof.
  unfold loopBody, tryCatch, bind, ret, throw.
  destruct (switchOperation this sdk itemIndex w) as [[e | result] w1].
  - destruct (continueOnFail this); intros H; [| discriminate].
    injection H as <- _. eexists. repeat split. discriminate.
  - intros H. injection H as <- _. eexists. repeat split.
Qed.

(** X1. When the credentials cannot be resolved the run throws that error
    before the first item: no remote call is made, whatever the input
    items and the continue-on-failure flag. *)
Theorem credential_failure_is_fatal (this : IExecuteFunctions) (e : Js.Error)
    (w : World) :
  getCredentials this "soroswapApi" = inl e ->
  forall flag : bool,
    execute (withContinueOnFail flag this) w = (inl e, w).
Proof.
  intros Hcreds flag. unfold execute, bind at 1, lift.
  cbn [withContinueOnFail getCredentials]. now rewrite Hcreds.
Qed.

(** The loop over [n + m] items is the loop over the first [n] followed
    by the loop over the next [m]. *)
Lemma forLoop_split (this : IExecuteFunctions) (sdk : Sdk.Call -> Eff Json)
    (n m : nat) :
  forall (itemIndex : nat) (returnData : list INodeExecutionData) (w : World),
    forLoop this sdk (n + m) itemIndex returnData w
    = bind (forLoop this sdk n itemIndex returnData)
        (fun returnData' => forLoop this sdk m (itemIndex + n) returnData') w.
Proof.
  induction n as [| n IH]; intros itemIndex returnData w.
  - cbn. unfold bind, ret. now rewrite Nat.add_0_r.
  - cbn [Nat.add forLoop]. unfold bind.
    destruct (loopBody this sdk itemIndex returnData w) as [[e | rd] w1].
    + reflexivity.
    + rewrite IH. unfold bind. now rewrite Nat.add_succ_comm.
Qed.

Lemma forLoop_suffix (this : IExecuteFunctions) (sdk : Sdk.Call -> Eff Json)
    (remaining : nat) :
  forall (itemIndex : nat) (returnData out : list INodeExecutionData)
         (w w' : World),
    forLoop this sdk remaining itemIndex returnData w = (inr out, w') ->
    exists suffix : list INodeExecutionData,
      out = returnData ++ suffix /\
      map pairedItem suffix = seq itemIndex remaining /\
      (continueOnFail this = false ->
       Forall (fun r => isSuccess r = true) suffix).
Proof.
  induction remaining as [| remaining IH];
    intros itemIndex returnData out w w'.
  - cbn. unfold ret. intros H. injection H as <- _.
    exists []. rewrite app_nil_r. repeat split. constructor.
  - cbn [forLoop]. unfold bind.
    destruct (loopBody this sdk itemIndex returnData w) as [[e | rd] w1] eqn:Hb;
      [discriminate |].
    intros H. apply loopBody_appends in Hb as (x & -> & Hx & Hok).
    apply IH in H as (suffix & -> & Hpair & Hall).
    exists (x :: suffix). rewrite <- app_assoc. cbn [app map seq].
    rewrite Hx, Hpair. repeat split.
    intros Hflag. constructor; auto.
Qed.

(** X3. Records are only ever appended: when the loop returns, its output
    is the list it started from followed by one record per item, paired
    with the consecutive indices; without the flag all of them are
    Successes. *)
Theorem forLoop_appends (this : IExecuteFunctions) (sdk : Sdk.Call -> Eff Json)
    (remaining itemIndex : nat) (returnData out : list INodeExecutionData)
    (w w' : World) :
  forLoop this sdk remaining itemIndex returnData w = (inr out, w') ->
  exists suffix : list INodeExecutionData,
    out = returnData ++ suffix /\
    map pairedItem suffix = seq itemIndex remaining /\
    (continueOnFail this = false ->
     Forall (fun r => isSuccess r = true) suffix).
Proof. apply forLoop_suffix. Qed.

(** X4. Whenever a run returns, with or without the flag, it returns one
    output branch holding one record per input item, paired with the
    indices 0 .. N-1 in order; without the flag every record is a
    Success. *)
Theorem execute_output_shape (this : IExecuteFunctions)
    (out : list (list INodeExecutionData)) (w w' : World) :
  execute this w = (inr out, w') ->
  exists returnData : list INodeExecutionData,
    out = [returnData] /\
    map pairedItem returnData = seq 0 (length (getInputData this)) /\
    (continueOnFail this = false ->
     Forall (fun r => isSuccess r = true) returnData).
Proof.
  unfold execute, bind at 1, lift.
  destruct (getCredentials this "soroswapApi") as [e | creds]; [discriminate |].
  unfold bind, ret.
  destruct (forLoop this _ _ _ _ w) as [[e | rd] w1] eqn:Hloop; [discriminate |].
  intros H. injection H as <- _.
  apply forLoop_suffix in Hloop as (suffix & -> & Hpair & Hall).
  exists suffix. cbn [app]. auto.
Qed.

(** Without the flag the loop runs through as long as every item
    succeeds, and leaves what the run with the flag would leave. *)
Lemma forLoop_failFast_ok (this : IExecuteFunctions)
    (sdk : Sdk.Call -> Eff Json) :
  continueOnFail this = false ->
  forall (remaining itemIndex : nat) (returnData : list INodeExecutionData)
         (w : World),
    (forall j : nat,
        (j < remaining)%nat ->
        exists result : Json,
          fst (switchOperation this sdk (itemIndex + j)
                 (runWorld this sdk j itemIndex w)) = inr result) ->
    forLoop this sdk remaining itemIndex returnData w
    = (inr (returnData ++ runResults this sdk remaining itemIndex w),
       runWorld this sdk remaining itemIndex w).
Proof.
  intros Hflag remaining.
  induction remaining as [| remaining IH]; intros itemIndex returnData w Hok.
  - cbn. unfold ret. now rewrite app_nil_r.
  - cbn [forLoop runResults runWorld]. unfold bind.
    rewrite loopBody_failFast by exact Hflag.
    destruct (Hok 0%nat ltac:(lia)) as [result H0].
    cbn [runWorld] in H0. rewrite Nat.add_0_r in H0.
    destruct (switchOperation this sdk itemIndex w) as [r w1] eqn:Hsw.
    cbn [fst] in H0. subst r. cbn [snd resultOf].
    rewrite IH.
    + now rewrite <- app_assoc.
    + intros j Hj. destruct (Hok (S j) ltac:(lia)) as [rj Hrj].
      cbn [runWorld] in Hrj. rewrite Hsw in Hrj. cbn [snd] in Hrj.
      rewrite <- Nat.add_succ_comm in Hrj. eauto.
Qed.

(** Without the flag the loop stops at the first item that fails. *)
Lemma forLoop_failFast_abort (this : IExecuteFunctions)
    (sdk : Sdk.Call -> Eff Json) :
  continueOnFail this = false ->
  forall (k remaining itemIndex : nat) (returnData : list INodeExecutionData)
         (w w' : World) (e : Js.Error),
    (k < remaining)%nat ->
    (forall j : nat,
        (j < k)%nat ->
        exists result : Json,
          fst (switchOperation this sdk (itemIndex + j)
                 (runWorld this sdk j itemIndex w)) = inr result) ->
    switchOperation this sdk (itemIndex + k) (runWorld this sdk k itemIndex w)
    = (inl e, w') ->
    forLoop this sdk remaining itemIndex returnData w
    = (inl (Js.NodeOperationError (Js.message e) (itemIndex + k)), w').
Proof.
  intros Hflag k.
  induction k as [| k IH];
    intros remaining itemIndex returnData w w' e Hk Hok Hfail;
    (destruct remaining as [| remaining]; [lia |]);
    cbn [forLoop]; unfold bind; rewrite loopBody_failFast by exact Hflag.
  - cbn [runWorld] in Hfail. rewrite Nat.add_0_r in *.
    now rewrite Hfail.
  - destruct (Hok 0%nat ltac:(lia)) as [result H0].
    cbn [runWorld] in H0. rewrite Nat.add_0_r in H0.
    destruct (switchOperation this sdk itemIndex w) as [r w1] eqn:Hsw.
    cbn [fst] in H0. subst r.
    cbn [runWorld] in Hfail. rewrite Hsw in Hfail. cbn [snd] in Hfail.
    rewrite <- Nat.add_succ_comm in Hfail.
    rewrite (IH remaining (S itemIndex) _ w1 w' e); try lia; try exact Hfail.
    + now rewrite Nat.add_succ_comm.
    + intros j Hj. destruct (Hok (S j) ltac:(lia)) as [rj Hrj].
      cbn [runWorld] in Hrj. rewrite Hsw in Hrj. cbn [snd] in Hrj.
      rewrite <- Nat.add_succ_comm in Hrj. eauto.
Qed.

(** X5. Without the flag, the run stops at the first failing item [k]:
    it throws a NodeOperationError with that item's message and index,
    returns no records, and leaves the remote system as item [k] left it,
    so no later item is processed. *)
Theorem execute_failFast_abort (this : IExecuteFunctions)
    (creds : Sdk.Config) (w w' : World) (k : nat) (e : Js.Error) :
  continueOnFail this = false ->
  getCredentials this "soroswapApi" = inr creds ->
  (k < length (getInputData this))%nat ->
  (forall j : nat,
      (j < k)%nat ->
      exists result : Json,
        fst (switchOperation this (SoroswapSDK creds) j
               (runWorld this (SoroswapSDK creds) j 0 w)) = inr result) ->
  switchOperation this (SoroswapSDK creds) k
    (runWorld this (SoroswapSDK creds) k 0 w) = (inl e, w') ->
  execute this w = (inl (Js.NodeOperationError (Js.message e) k), w').
Proof.
  intros Hflag Hcreds Hk Hok Hfail. unfold execute, bind at 1, lift.
  rewrite Hcreds. destruct creds as [apiKey baseUrl].
  cbn [Sdk.apiKey Sdk.baseUrl]. unfold bind.
  now rewrite (forLoop_failFast_abort this _ Hflag k _ 0%nat [] w w' e Hk Hok Hfail).
Qed.

Lemma runWorld_withContinueOnFail (flag : bool) (this : IExecuteFunctions)
    (sdk : Sdk.Call -> Eff Json) (remaining : nat) :
  forall (itemIndex : nat) (w : World),
    runWorld (withContinueOnFail flag this) sdk remaining itemIndex w
    = runWorld this sdk remaining itemIndex w.
Proof.
  induction remaining as [| remaining IH]; intros itemIndex w; cbn.
  - reflexivity.
  - now rewrite IH.
Qed.

Lemma runResults_withContinueOnFail (flag : bool) (this : IExecuteFunctions)
    (sdk : Sdk.Call -> Eff Json) (remaining : nat) :
  forall (itemIndex : nat) (w : World),
    runResults (withContinueOnFail flag this) sdk remaining itemIndex w
    = runResults this sdk remaining itemIndex w.
Proof.
  induction remaining as [| remaining IH]; intros itemIndex w; cbn.
  - reflexivity.
  - rewrite withContinueOnFail_switch.
    destruct (switchOperation this sdk itemIndex w). now rewrite IH.
Qed.

(** X6. When no item fails the flag makes no difference: the run without
    it returns the same records and leaves the same remote state as the
    run with it. *)
Theorem flag_irrelevant_without_failure (this : IExecuteFunctions)
    (creds : Sdk.Config) (w : World) :
  getCredentials this "soroswapApi" = inr creds ->
  (forall j : nat,
      (j < length (getInputData this))%nat ->
      exists result : Json,
        fst (switchOperation this (SoroswapSDK creds) j
               (runWorld this (SoroswapSDK creds) j 0 w)) = inr result) ->
  execute (withContinueOnFail false this) w
  = execute (withContinueOnFail true this) w.
Proof.
  intros Hcreds Hok.
  rewrite (execute_continue (withContinueOnFail true this) creds)
    by (reflexivity || assumption).
  unfold execute, bind at 1, lift.
  cbn [withContinueOnFail getCredentials getInputData].
  rewrite Hcreds. destruct creds as [apiKey baseUrl].
  cbn [Sdk.apiKey Sdk.baseUrl]. unfold bind, ret.
  rewrite forLoop_failFast_ok.
  - now rewrite !runResults_withContinueOnFail, !runWorld_withContinueOnFail.
  - reflexivity.
  - intros j Hj. rewrite runWorld_withContinueOnFail.
    rewrite withContinueOnFail_switch. now apply Hok.
Qed.

(** ** Further properties of the [switch] *)

Ltac split_switch :=
  open_switch;
  repeat match goal with
    | |- context [if String.eqb ?a ?b then _ else _] =>
        let E := fresh "E" in
        destruct (String.eqb_spec a b) as [E | E];
        [ cbv beta iota; rewrite ?E; eval_displayed | clear E ]
    end.

Ltac split_BigInt :=
  repeat match goal with
    | |- context [Js.BigInt ?x] => destruct (Js.BigInt x) eqn:?
    end;
  cbv beta iota.

(** X7. An item makes at most one remote call.  Which call it makes, or
    which error keeps it from making one, depends on the item's
    parameters alone, not on the client or on the state of the remote
    system; when no call is made the remote system is left untouched. *)
Theorem switch_single_call (this : IExecuteFunctions) (itemIndex : nat) :
  exists r : Js.Error + Sdk.Call,
    forall (sdk : Sdk.Call -> Eff Json) (w : World),
      switchOperation this sdk itemIndex w
      = match r with
        | inr call => sdk call w
        | inl e => (inl e, w)
        end.
Proof.
  split_switch; split_BigInt; unfold throw;
    first [ eexists (inr _); intros sdk w; reflexivity
          | eexists (inl _); intros sdk w; reflexivity ].
Qed.

(** With a client that accepts every call, an item whose operation is one
    of the twelve does not end in a NodeOperationError. *)
Lemma known_operation_not_unknown (this : IExecuteFunctions)
    (itemIndex : nat) (w : World) (m : string) (j : nat) :
  In (Param.operation (nodeParameters this itemIndex)) operations ->
  switchOperation this (fun _ w0 => (inr JNull, w0)) itemIndex w
  <> (inl (Js.NodeOperationError m j), w).
Proof.
  intros Hin. cbn in Hin.
  repeat (destruct Hin as [Hop | Hin]; [symmetry in Hop |]);
    try contradiction;
    first [ rewrite switch_addLiquidity by exact Hop
          | rewrite switch_removeLiquidity by exact Hop
          | rewrite switch_build by exact Hop
          | rewrite switch_send by exact Hop
          | rewrite switch_getAssetList by exact Hop
          | rewrite switch_getPrice by exact Hop
          | rewrite switch_getContractAddress by exact Hop
          | rewrite switch_getPoolByTokens by exact Hop
          | rewrite switch_getPools by exact Hop
          | rewrite switch_getProtocols by exact Hop
          | rewrite switch_getUserPositions by exact Hop
          | rewrite switch_quote by exact Hop ];
    try discriminate.
  destruct (Js.BigInt _) as [e | n] eqn:Hb; [| discriminate].
  apply BigInt_error in Hb as [m' ->]. discriminate.
Qed.

(** X9. The [default] branch is taken exactly for the operations that
    are not among the twelve option values of the node: an item fails
    with "Unknown operation", whatever the client, if and only if its
    operation is not in the option list. *)
Theorem unknown_iff_not_an_option (this : IExecuteFunctions)
    (itemIndex : nat) (w : World) :
  let operation := Param.operation (nodeParameters this itemIndex) in
  (forall sdk : Sdk.Call -> Eff Json,
      switchOperation this sdk itemIndex w
      = (inl (Js.NodeOperationError
                ("Unknown operation: " ++ operation)%string itemIndex), w))
  <-> ~ In operation operations.
Proof.
  intros operation. subst operation. split.
  - intros H Hin.
    specialize (H (fun _ w0 => (inr JNull, w0))).
    now apply known_operation_not_unknown in H.
  - intros Hno sdk. now apply switch_unknown.
Qed.

(** X10. For the nine operations without an integer-typed parameter the
    dispatcher never fails an item by itself, whatever the parameters
    hold (empty required fields included): the item always reaches the
    remote client, and its outcome is the outcome of that one call. *)
Theorem no_local_validation (this : IExecuteFunctions) (itemIndex : nat) :
  In (Param.operation (nodeParameters this itemIndex))
     ["getProtocols"; "build"; "send"; "getPools"; "getPoolByTokens";
      "getUserPositions"; "getAssetList"; "getPrice"; "getContractAddress"] ->
  exists call : Sdk.Call,
    forall (sdk : Sdk.Call -> Eff Json) (w : World),
      switchOperation this sdk itemIndex w = sdk call w.
Proof.
  intros Hin. cbn in Hin.
  repeat (destruct Hin as [Hop | Hin];
          [symmetry in Hop; eexists; intros sdk w; switch_on Hop;
           reflexivity |]).
  contradiction.
Qed.

(** X11. An operation reads only its own parameters: two items with the
    same operation and network that agree on the parameters read inside
    the [case] of that operation have the same outcome. *)
Theorem switch_reads_only_its_parameters (this1 this2 : IExecuteFunctions)
    (sdk : Sdk.Call -> Eff Json) (itemIndex : nat) (w : World) :
  let p := nodeParameters this1 itemIndex in
  let q := nodeParameters this2 itemIndex in
  Param.operation p = Param.operation q ->
  Param.network p = Param.network q ->
  (forall name : string,
      In name (parametersRead (Param.operation p)) ->
      Param.get name p = Param.get name q) ->
  switchOperation this1 sdk itemIndex w = switchOperation this2 sdk itemIndex w.
Proof.
  intros p q Hop Hnet Hread. subst p q.
  open_switch. rewrite <- Hop, <- Hnet.
  repeat match goal with
    | |- context [if String.eqb ?a ?b then _ else _] =>
        let E := fresh "E" in
        destruct (String.eqb_spec a b) as [E | E];
        [ cbv beta iota; rewrite E in Hread; rewrite <- ?Hop; rewrite ?E;
          clear Hop; eval_displayed
        | clear E ]
    end;
    try reflexivity;
    match type of Hread with
    | forall name, In name (parametersRead ?o) -> _ =>
        let v := eval vm_compute in (parametersRead o) in
        change (parametersRead o) with v in Hread
    end;
    repeat match type of Hread with
      | forall name, In name (?n :: ?l) -> _ =>
          let F := fresh "F" in
          pose proof (Hread n (or_introl eq_refl)) as F;
          cbv [Param.get String.eqb Ascii.eqb Bool.eqb] in F;
          injection F as F;
          assert (Hread' : forall name, In name l ->
                     Param.get name (nodeParameters this1 itemIndex)
                     = Param.get name (nodeParameters this2 itemIndex))
            by (intros name Hname; apply Hread; right; exact Hname);
          clear Hread; rename Hread' into Hread
      end;
    repeat match goal with
      | F : _ = _ |- _ => rewrite <- F; clear F
      end;
    reflexivity.
Qed.

End Dispatcher.

(** ** The string built-ins *)

Section StringFacts.

Local Open Scope string_scope.

Lemma trimStart_decompose (s : string) :
  exists l : string, s = l ++ Js.trimStart s /\ Js.allWhiteSpace l = true.
Proof.
  induction s as [| c s' [l [Hs Hl]]].
  - now exists EmptyString.
  - cbn [Js.trimStart]. destruct (Js.isWhiteSpace c) eqn:Hc.
    + exists (String c l). cbn. now rewrite Hc, Hl, <- Hs.
    + now exists EmptyString.
Qed.

Lemma trimEnd_decompose (s : string) :
  exists r : string, s = Js.trimEnd s ++ r /\ Js.allWhiteSpace r = true.
Proof.
  induction s as [| c s' [r [Hs Hr]]].
  - now exists EmptyString.
  - cbn [Js.trimEnd]. destruct (Js.trimEnd s') as [| d t] eqn:Ht.
    + cbn in Hs. subst s'. destruct (Js.isWhiteSpace c) eqn:Hc.
      * exists (String c r). cbn. now rewrite Hc, Hr.
      * now exists r.
    + exists r. cbn. split; [now f_equal | exact Hr].
Qed.

Lemma trimStart_head (s : string) (c : ascii) (t : string) :
  Js.trimStart s = String c t -> Js.isWhiteSpace c = false.
Proof.
  induction s as [| a s' IH]; cbn [Js.trimStart]; [discriminate |].
  destruct (Js.isWhiteSpace a) eqn:Ha; [exact IH |].
  intros H. injection H as <- _. exact Ha.
Qed.

Lemma trimEnd_head (s : string) (c : ascii) (t : string) :
  Js.trimEnd s = String c t -> exists s' : string, s = String c s'.
Proof.
  destruct s as [| a s']; cbn [Js.trimEnd]; [discriminate |].
  destruct (Js.trimEnd s'); [destruct (Js.isWhiteSpace a) |];
    intros H; try discriminate; injection H as <- _; eauto.
Qed.

Lemma trimEnd_last (s : string) :
  forall (t : string) (c : ascii),
    Js.trimEnd s = t ++ String c EmptyString -> Js.isWhiteSpace c = false.
Proof.
  induction s as [| a s' IH]; intros t c; cbn [Js.trimEnd].
  - destruct t; discriminate.
  - destruct (Js.trimEnd s') as [| d u].
    + destruct (Js.isWhiteSpace a) eqn:Ha.
      * destruct t; discriminate.
      * destruct t as [| x t']; cbn; intros H.
        -- injection H as <-. exact Ha.
        -- injection H as _ H. destruct t'; discriminate.
    + destruct t as [| x t']; cbn; intros H.
      * discriminate.
      * injection H as _ H. exact (IH t' c H).
Qed.

(** [trim] removes a run of white space at each end and nothing else, and
    what is left neither starts nor ends with white space. *)
Lemma trim_spec (s : string) :
  (exists l r : string,
      s = l ++ Js.trim s ++ r /\
      Js.allWhiteSpace l = true /\ Js.allWhiteSpace r = true) /\
  (forall (c : ascii) (t : string),
      Js.trim s = String c t -> Js.isWhiteSpace c = false) /\
  (forall (t : string) (c : ascii),
      Js.trim s = t ++ String c EmptyString -> Js.isWhiteSpace c = false).
Proof.
  unfold Js.trim. split; [| split].
  - destruct (trimStart_decompose s) as [l [Hs Hl]].
    destruct (trimEnd_decompose (Js.trimStart s)) as [r [Ht Hr]].
    exists l, r. now rewrite <- Ht.
  - intros c t H. destruct (trimEnd_head _ _ _ H) as [s' Hs'].
    exact (trimStart_head _ _ _ Hs').
  - intros t c. apply trimEnd_last.
Qed.

Lemma split_nonempty (sep : ascii) (s : string) : Js.split sep s <> [].
Proof.
  destruct s as [| c s']; cbn; [discriminate |].
  destruct (Ascii.eqb c sep); [discriminate |].
  destruct (Js.split sep s'); discriminate.
Qed.

Lemma concat_cons (sep x : string) (l : list string) :
  l <> [] ->
  String.concat sep (x :: l) = x ++ sep ++ String.concat sep l.
Proof. destruct l; [contradiction | reflexivity]. Qed.

(** Joining the segments with the separator gives the string back. *)
Lemma split_join (sep : ascii) (s : string) :
  String.concat (String sep EmptyString) (Js.split sep s) = s.
Proof.
  induction s as [| c s' IH]; [reflexivity |].
  cbn [Js.split]. pose proof (split_nonempty sep s') as Hne.
  destruct (Ascii.eqb_spec c sep) as [-> | Hc].
  - rewrite concat_cons by exact Hne. now rewrite IH.
  - destruct (Js.split sep s') as [| h t]; [contradiction |].
    destruct t as [| x t'].
    + cbn in *. now rewrite IH.
    + rewrite concat_cons by discriminate.
      rewrite concat_cons in IH by discriminate.
      now rewrite <- IH.
Qed.

(** No segment contains the separator. *)
Lemma split_segment_free (sep : ascii) (s : string) :
  forall seg : string,
    In seg (Js.split sep s) ->
    forall a b : string, seg <> a ++ String sep b.
Proof.
  induction s as [| c s' IH]; intros seg Hin a b.
  - destruct Hin as [<- | []]. destruct a; discriminate.
  - cbn [Js.split] in Hin. destruct (Ascii.eqb_spec c sep) as [-> | Hc].
    + destruct Hin as [<- | Hin]; [destruct a; discriminate |].
      now apply IH.
    + pose proof (split_nonempty sep s') as Hne.
      destruct (Js.split sep s') as [| h t]; [contradiction |].
      destruct Hin as [<- | Hin].
      * destruct a as [| x a']; cbn; intros H; injection H as H1 H2.
        -- now apply Hc.
        -- exact (IH h (or_introl eq_refl) a' b H2).
      * apply IH. now right.
Qed.

Lemma toLowerCase_length (s : string) :
  String.length (Js.toLowerCase s) = String.length s.
Proof. induction s as [| c s' IH]; cbn; [reflexivity | now rewrite IH]. Qed.

Lemma lowerUnit_idempotent (c : ascii) :
  Js.lowerUnit (Js.lowerUnit c) = Js.lowerUnit c.
Proof.
  destruct c as [[] [] [] [] [] [] [] []]; reflexivity.
Qed.

Lemma toLowerCase_idempotent (s : string) :
  Js.toLowerCase (Js.toLowerCase s) = Js.toLowerCase s.
Proof.
  induction s as [| c s' IH]; cbn; [reflexivity |].
  now rewrite lowerUnit_idempotent, IH.
Qed.

(** *** [BigInt] on decimal numerals *)

Ltac eval_digit :=
  match goal with
  | |- context [Js.digitValue ?r ?c] =>
      let v := eval vm_compute in (Js.digitValue r c) in
      change (Js.digitValue r c) with v
  end.

Lemma digitsFrom_decimal (d : Decimal.uint) :
  forall acc : nat,
    Js.digitsFrom 10 (NilEmpty.string_of_uint d) (Z.of_nat acc)
    = Some (Z.of_nat (Nat.of_uint_acc d acc)).
Proof.
  induction d; intros acc;
    cbn [NilEmpty.string_of_uint Js.digitsFrom Nat.of_uint_acc];
    [reflexivity | ..];
    eval_digit; cbv iota; rewrite Nat.tail_mul_spec, <- IHd;
    do 2 f_equal; lia.
Qed.

Lemma trimStart_decimal (d : Decimal.uint) :
  Js.trimStart (NilEmpty.string_of_uint d) = NilEmpty.string_of_uint d.
Proof. destruct d; reflexivity. Qed.

Lemma trimEnd_decimal (d : Decimal.uint) :
  Js.trimEnd (NilEmpty.string_of_uint d) = NilEmpty.string_of_uint d.
Proof.
  induction d; cbn [NilEmpty.string_of_uint Js.trimEnd];
    [reflexivity | ..];
    rewrite IHd; destruct d; reflexivity.
Qed.

Lemma strIntegerLiteral_decimal (d : Decimal.uint) :
  d <> Decimal.Nil ->
  Js.strIntegerLiteral (NilEmpty.string_of_uint d)
  = Js.digitsFrom 10 (NilEmpty.string_of_uint d) 0.
Proof.
  intros Hd. destruct d as [| d | d | d | d | d | d | d | d | d | d];
    [contradiction | ..]; try reflexivity.
  destruct d; reflexivity.
Qed.

Lemma StringToBigInt_decimal (d : Decimal.uint) :
  d <> Decimal.Nil ->
  Js.StringToBigInt (NilEmpty.string_of_uint d)
  = Some (Z.of_nat (Nat.of_uint d)).
Proof.
  intros Hd. unfold Js.StringToBigInt, Js.trim.
  rewrite trimStart_decimal, trimEnd_decimal.
  transitivity (Js.strIntegerLiteral (NilEmpty.string_of_uint d)).
  { destruct d; [contradiction | reflexivity ..]. }
  rewrite strIntegerLiteral_decimal by exact Hd.
  change 0 with (Z.of_nat 0). apply digitsFrom_decimal.
Qed.

(** The decimal numeral of any natural number coerces to that number. *)
Lemma BigInt_decimal (n : nat) :
  Js.BigInt (NilZero.string_of_uint (Nat.to_uint n)) = inr (Z.of_nat n).
Proof.
  pose proof (DecimalNat.Unsigned.of_to n) as Hn.
  destruct (Nat.to_uint n) as [| d | d | d | d | d | d | d | d | d | d];
    [cbn in Hn; now subst n | ..];
    unfold Js.BigInt, NilZero.string_of_uint; cbv beta iota;
    rewrite StringToBigInt_decimal by discriminate;
    now rewrite Hn.
Qed.

Lemma numeral_shape (n : nat) :
  exists d : Decimal.uint,
    d <> Decimal.Nil /\
    NilZero.string_of_uint (Nat.to_uint n) = NilEmpty.string_of_uint d /\
    Nat.of_uint d = n.
Proof.
  pose proof (DecimalNat.Unsigned.of_to n) as Hn.
  destruct (Nat.to_uint n) as [| d | d | d | d | d | d | d | d | d | d] eqn:Hd.
  1: { exists (Decimal.D0 Decimal.Nil). cbn in *. repeat split; congruence. }
  all: eexists; split; [| split; [reflexivity | exact Hn]]; discriminate.
Qed.

Lemma decimal_nonempty (d : Decimal.uint) :
  d <> Decimal.Nil ->
  exists (c : ascii) (t : string), NilEmpty.string_of_uint d = String c t.
Proof.
  intros Hd. destruct d; [contradiction | ..]; cbn; do 2 eexists; reflexivity.
Qed.

(** A minus sign in front of a decimal numeral negates it. *)
Lemma BigInt_negative_decimal (n : nat) :
  Js.BigInt (String "-" (NilZero.string_of_uint (Nat.to_uint n)))
  = inr (- Z.of_nat n).
Proof.
  destruct (numeral_shape n) as (d & Hd & -> & <-).
  unfold Js.BigInt, Js.StringToBigInt, Js.trim.
  change (Js.trimStart (String "-" ?s)) with (String "-" s).
  assert (Hend : Js.trimEnd (String "-" (NilEmpty.string_of_uint d))
                 = String "-" (NilEmpty.string_of_uint d)).
  { cbn [Js.trimEnd]. rewrite trimEnd_decimal.
    destruct (decimal_nonempty d Hd) as (c & t & ->). reflexivity. }
  rewrite Hend.
  change (Js.strIntegerLiteral (String "-" ?s))
    with (option_map Z.opp (Js.digits 10 s)).
  assert (Hdig : Js.digits 10 (NilEmpty.string_of_uint d)
                 = Some (Z.of_nat (Nat.of_uint d))).
  { destruct (decimal_nonempty d Hd) as (c & t & Hs).
    unfold Js.digits. rewrite Hs, <- Hs.
    change 0 with (Z.of_nat 0). apply digitsFrom_decimal. }
  now rewrite Hdig.
Qed.

(** *** White space around a string *)

Lemma trimStart_blank (l : string) :
  Js.allWhiteSpace l = true -> Js.trimStart l = EmptyString.
Proof.
  induction l as [| c l IH]; cbn; [reflexivity |].
  destruct (Js.isWhiteSpace c); [exact IH | discriminate].
Qed.

Lemma trimEnd_blank (r : string) :
  Js.allWhiteSpace r = true -> Js.trimEnd r = EmptyString.
Proof.
  induction r as [| c r IH]; cbn; [reflexivity |].
  destruct (Js.isWhiteSpace c); [| discriminate].
  intros Hr. now rewrite (IH Hr).
Qed.

Lemma trimStart_pad_left (l s : string) :
  Js.allWhiteSpace l = true -> Js.trimStart (l ++ s) = Js.trimStart s.
Proof.
  induction l as [| c l IH]; cbn; [reflexivity |].
  destruct (Js.isWhiteSpace c); [exact IH | discriminate].
Qed.

Lemma trimEnd_pad_right (s r : string) :
  Js.allWhiteSpace r = true -> Js.trimEnd (s ++ r) = Js.trimEnd s.
Proof.
  intros Hr. induction s as [| c s IH]; cbn [append Js.trimEnd].
  - now apply trimEnd_blank.
  - now rewrite IH.
Qed.

Lemma trimStart_pad_right (s r : string) :
  Js.allWhiteSpace r = true ->
  Js.trimStart (s ++ r)
  = if Js.allWhiteSpace s then EmptyString else Js.trimStart s ++ r.
Proof.
  intros Hr. induction s as [| c s IH]; cbn [append Js.trimStart Js.allWhiteSpace].
  - now apply trimStart_blank.
  - destruct (Js.isWhiteSpace c); [exact IH | reflexivity].
Qed.

(** [trim] ignores white space added at either end. *)
Lemma trim_pad (l s r : string) :
  Js.allWhiteSpace l = true -> Js.allWhiteSpace r = true ->
  Js.trim (l ++ s ++ r) = Js.trim s.
Proof.
  intros Hl Hr. unfold Js.trim.
  rewrite trimStart_pad_left by exact Hl.
  rewrite trimStart_pad_right by exact Hr.
  destruct (Js.allWhiteSpace s) eqn:Hs.
  - now rewrite (trimStart_blank s Hs).
  - now apply trimEnd_pad_right.
Qed.

Lemma StringToBigInt_pad (l s r : string) :
  Js.allWhiteSpace l = true -> Js.allWhiteSpace r = true ->
  Js.StringToBigInt (l ++ s ++ r) = Js.StringToBigInt s.
Proof.
  intros Hl Hr. unfold Js.StringToBigInt. now rewrite trim_pad.
Qed.

Lemma BigInt_pad (l s r : string) (n : Z) :
  Js.allWhiteSpace l = true -> Js.allWhiteSpace r = true ->
  Js.BigInt s = inr n -> Js.BigInt (l ++ s ++ r) = inr n.
Proof.
  intros Hl Hr. unfold Js.BigInt. rewrite StringToBigInt_pad by assumption.
  now destruct (Js.StringToBigInt s).
Qed.

(** *** Splitting around a separator *)

Lemma split_without_separator (sep : ascii) (s : string) :
  (forall a b : string, s <> a ++ String sep b) -> Js.split sep s = [s].
Proof.
  induction s as [| c s IH]; intros Hfree; [reflexivity |].
  cbn [Js.split]. destruct (Ascii.eqb_spec c sep) as [-> | Hc].
  - exfalso. now apply (Hfree EmptyString s).
  - rewrite IH; [reflexivity |].
    intros a b ->. now apply (Hfree (String c a) b).
Qed.

(** Splitting distributes over a separator. *)
Lemma split_app (sep : ascii) (a b : string) :
  Js.split sep (a ++ String sep b)
  = (Js.split sep a ++ Js.split sep b)%list.
Proof.
  induction a as [| c a IH]; cbn [append Js.split].
  - now rewrite Ascii.eqb_refl.
  - destruct (Ascii.eqb c sep).
    + now rewrite IH.
    + rewrite IH. pose proof (split_nonempty sep a) as Hne.
      now destruct (Js.split sep a).
Qed.

End StringFacts.

(** ** Coercions seen from the dispatcher *)

Section Coercions.

Variable World : Type.
Variable SupportedProtocols : string -> option Sdk.EnumValue.
Variable SupportedAssetLists : string -> option Sdk.EnumValue.

Local Abbreviation switch :=
  (switchOperation World SupportedProtocols SupportedAssetLists).

Local Abbreviation numeral n := (NilZero.string_of_uint (Nat.to_uint n)).

Variable this : IExecuteFunctions.
Variable sdk : Sdk.Call -> Eff World Json.
Variable itemIndex : nat.
Variable w : World.

Local Abbreviation p := (nodeParameters this itemIndex).
Local Abbreviation network := (resolveNetwork (Param.network p)).

(** What quote transmits once its amount parses. *)
Lemma quote_amount_transmitted (n : Z) :
  Param.operation p = "quote" ->
  Js.BigInt (Param.amount p) = inr n ->
  switch this sdk itemIndex w
  = sdk (Sdk.quote (Param.assetIn p) (Param.assetOut p) n
           (resolveTradeType (Param.tradeType p))
           (map SupportedProtocols (Param.protocols p)) network) w.
Proof. intros Hop Hn. now rewrite switch_quote, Hn. Qed.

(** X12. Decimal round trip: when the amount of a quote item holds the
    decimal numeral of a natural number, however large, the remote call
    carries exactly that number. *)
Theorem decimal_amounts_round_trip (n : nat) :
  Param.operation p = "quote" ->
  Param.amount p = numeral n ->
  switch this sdk itemIndex w
  = sdk (Sdk.quote (Param.assetIn p) (Param.assetOut p) (Z.of_nat n)
           (resolveTradeType (Param.tradeType p))
           (map SupportedProtocols (Param.protocols p)) network) w.
Proof.
  intros Hop Hn. apply quote_amount_transmitted; [exact Hop |].
  rewrite Hn. apply BigInt_decimal.
Qed.

(** X13. No sign check: when the amount of a quote item holds a minus
    sign followed by a decimal numeral, it is accepted and the remote
    call carries the negative number. *)
Theorem negative_amounts_transmitted (n : nat) :
  Param.operation p = "quote" ->
  Param.amount p = String "-" (numeral n) ->
  switch this sdk itemIndex w
  = sdk (Sdk.quote (Param.assetIn p) (Param.assetOut p) (- Z.of_nat n)
           (resolveTradeType (Param.tradeType p))
           (map SupportedProtocols (Param.protocols p)) network) w.
Proof.
  intros Hop Hn. apply quote_amount_transmitted; [exact Hop |].
  rewrite Hn. apply BigInt_negative_decimal.
Qed.

(** X14. White space around the amount of a quote item is ignored: if a
    text parses to n, the same text with white space added before and
    after it makes the remote call carry n. *)
Theorem padded_amounts_transmitted (l s r : string) (n : Z) :
  Js.allWhiteSpace l = true ->
  Js.allWhiteSpace r = true ->
  Js.BigInt s = inr n ->
  Param.operation p = "quote" ->
  Param.amount p = (l ++ s ++ r)%string ->
  switch this sdk itemIndex w
  = sdk (Sdk.quote (Param.assetIn p) (Param.assetOut p) n
           (resolveTradeType (Param.tradeType p))
           (map SupportedProtocols (Param.protocols p)) network) w.
Proof.
  intros Hl Hr Hs Hop Hn. apply quote_amount_transmitted; [exact Hop |].
  rewrite Hn. now apply BigInt_pad.
Qed.

(** X15. getPrice passes a single string exactly when the assets text
    has no comma, and that string is the trimmed text (the empty text
    included).  With a comma, the list passed is the trimmed segments
    before it followed by the trimmed segments after it. *)
Theorem getPrice_unwrapped_iff_no_comma :
  Param.operation p = "getPrice" ->
  ((forall a b : string, Param.assets p <> (a ++ String "," b)%string) ->
   switch this sdk itemIndex w
   = sdk (Sdk.getPrice (inl (Js.trim (Param.assets p))) network) w) /\
  (forall a b : string,
      Param.assets p = (a ++ String "," b)%string ->
      switch this sdk itemIndex w
      = sdk (Sdk.getPrice
               (inr (map Js.trim (Js.split "," a)
                     ++ map Js.trim (Js.split "," b))) network) w).
Proof.
  intros Hop. rewrite switch_getPrice by exact Hop. split.
  - intros Hfree. now rewrite split_without_separator.
  - intros a b Hab. rewrite Hab, split_app, map_app.
    pose proof (split_nonempty "," a) as Ha.
    pose proof (split_nonempty "," b) as Hb.
    destruct (Js.split "," a) as [| a1 ta]; [contradiction |].
    destruct (Js.split "," b) as [| b1 tb]; [contradiction |].
    now destruct ta.
Qed.

End Coercions.

(** ** The declared parameters and the parameters read *)

(** X16. The schema and the [switch] agree on which parameters belong to
    which operation, with one exception.  Every parameter the schema
    displays for an operation is read by the [case] of that operation;
    every parameter read by a [case] is declared in the schema and is
    displayed for that operation, except [to], which addLiquidity and
    removeLiquidity read although the schema displays it for build
    only. *)
Theorem displayed_and_read (operation : string)
    (property : Description.INodeProperties) (show : list string) :
  In operation operations ->
  In property Description.properties ->
  Description.showOperation property = Some show ->
  (In operation show ->
   In (Description.name property) (parametersRead operation)) /\
  (In (Description.name property) (parametersRead operation) ->
   In operation show \/
   (Description.name property = "to" /\ show = ["build"] /\
    (operation = "addLiquidity" \/ operation = "removeLiquidity"))).
Proof.
  intros Hop Hprop Hshow. cbn in Hop.
  repeat (destruct Hop as [<- | Hop]; [| ]); try contradiction;
    cbn in Hprop;
    repeat (destruct Hprop as [<- | Hprop]; [| ]); try contradiction;
    cbn in Hshow; try discriminate; injection Hshow as <-;
    (split; intros Hin; vm_compute in Hin |- *; intuition discriminate).
Qed.

(** Every parameter read by a [case] has an entry in the schema. *)
Lemma read_parameters_declared (operation name : string) :
  In name (parametersRead operation) ->
  exists property : Description.INodeProperties,
    Description.find name = Some property /\
    Description.name property = name.
Proof.
  unfold parametersRead.
  repeat match goal with
    | |- context [if String.eqb ?a ?b then _ else _] =>
        destruct (String.eqb a b)
    end;
    cbn; intros Hin;
    repeat (destruct Hin as [<- | Hin];
            [eexists; split; [vm_compute; reflexivity | reflexivity] |]);
    contradiction.
Qed.

Example trim_ex : Js.trim "  B " = "B".
Proof. reflexivity. Qed.

Example split_ex : Js.split "," "A, B ,C" = ["A"; " B "; "C"].
Proof. reflexivity. Qed.

Example split_empty_ex : Js.split "," EmptyString = [EmptyString].
Proof. reflexivity. Qed.

Example split_trailing_ex : Js.split "," "A," = ["A"; EmptyString].
Proof. reflexivity. Qed.

Example lower_ex : Js.toLowerCase "Stellar_Expert" = "stellar_expert".
Proof. reflexivity. Qed.

Example bigint_decimal_ex : Js.BigInt "0042" = inr 42.
Proof. reflexivity. Qed.

Example bigint_blank_ex : Js.BigInt "   " = inr 0.
Proof. reflexivity. Qed.

Example bigint_hex_ex : Js.BigInt " 0x1F " = inr 31.
Proof. reflexivity. Qed.

Example bigint_negative_ex : Js.BigInt "-7" = inr (-7).
Proof. reflexivity. Qed.

Example bigint_fraction_ex :
  Js.BigInt "1.5" = inl (Js.SyntaxError "Cannot convert 1.5 to a BigInt").
Proof. reflexivity. Qed.

Example bigint_exponent_ex :
  Js.BigInt "1e3" = inl (Js.SyntaxError "Cannot convert 1e3 to a BigInt").
Proof. reflexivity. Qed.

Example bigint_prefix_only_ex :
  Js.BigInt "0x" = inl (Js.SyntaxError "Cannot convert 0x to a BigInt").
Proof. reflexivity. Qed.

Example bigint_signed_hex_ex :
  Js.BigInt "-0x1" = inl (Js.SyntaxError "Cannot convert -0x1 to a BigInt").
Proof. reflexivity. Qed.

(** ** Runs on the stand-in host and client *)

Local Abbreviation sampleExecute :=
  (execute Sample.World Sample.SupportedProtocols Sample.SupportedAssetLists
     Sample.SoroswapSDK).

Local Abbreviation sampleSwitch :=
  (switchOperation Sample.World Sample.SupportedProtocols
     Sample.SupportedAssetLists).

Local Abbreviation sampleLoop :=
  (forLoop Sample.World Sample.SupportedProtocols Sample.SupportedAssetLists).

Local Abbreviation sampleBody :=
  (loopBody Sample.World Sample.SupportedProtocols Sample.SupportedAssetLists).

Local Abbreviation sampleSdk := (Sample.SoroswapSDK Sample.credentials).

(** A run in which the second item has an unknown operation and the third
    is rejected by the remote client. *)
Example run_with_failures :
  sampleExecute
    (Sample.host true
       [Sample.item "getProtocols"; Sample.item "doesNotExist";
        Sample.item "send"]) []
  = (inr [[successItem (JString "ok") 0;
           failureItem
             (Js.NodeOperationError "Unknown operation: doesNotExist" 1) 1;
           failureItem (Js.SdkError "Bad Request") 2]],
     [Sdk.getProtocols Sdk.MAINNET;
      Sdk.send EmptyString false Sdk.MAINNET]).
Proof. reflexivity. Qed.

Lemma execute_pairing_witness :
  let this :=
    Sample.host true
      [Sample.item "getProtocols"; Sample.item "doesNotExist";
       Sample.item "send"] in
  exists (returnData : list INodeExecutionData) (w' : Sample.World),
    sampleExecute this [] = (inr [returnData], w') /\
    length returnData = 3%nat /\
    forall i : nat,
      (i < 3)%nat ->
      exists r : INodeExecutionData,
        nth_error returnData i = Some r /\
        pairedItem r = i /\
        match
          fst (sampleSwitch this sampleSdk i
                 (snd (sampleLoop this sampleSdk i 0%nat [] [])))
        with
        | inr payload =>
            json r = payload /\ error r = None /\ isSuccess r = true
        | inl e =>
            json r = JObject [("error", JString (Js.message e))] /\
            error r = Some e /\ isFailure r = true
        end.
Proof.
  intros this.
  exact (execute_pairing Sample.World Sample.SupportedProtocols
           Sample.SupportedAssetLists Sample.SoroswapSDK this
           Sample.credentials [] eq_refl eq_refl).
Defined.

Lemma fail_fast_vs_continue_witness :
  let this :=
    Sample.host false
      [Sample.item "getProtocols"; Sample.item "doesNotExist";
       Sample.item "getProtocols"] in
  let unknown :=
    Js.NodeOperationError "Unknown operation: doesNotExist" 1 in
  sampleExecute (withContinueOnFail false this) []
  = (inl unknown, [Sdk.getProtocols Sdk.MAINNET])
  /\
  exists r0 r1 r2 : INodeExecutionData,
    sampleExecute (withContinueOnFail true this) []
    = (inr [[r0; r1; r2]],
       [Sdk.getProtocols Sdk.MAINNET; Sdk.getProtocols Sdk.MAINNET]) /\
    (isSuccess r0 = true /\ error r0 = None /\ json r0 = JString "ok" /\
     pairedItem r0 = 0%nat) /\
    (isFailure r1 = true /\ error r1 = Some unknown /\
     json r1
     = JObject [("error", JString "Unknown operation: doesNotExist")] /\
     pairedItem r1 = 1%nat) /\
    (isSuccess r2 = true /\ error r2 = None /\ json r2 = JString "ok" /\
     pairedItem r2 = 2%nat).
Proof.
  intros this unknown.
  exact (fail_fast_vs_continue Sample.World Sample.SupportedProtocols
           Sample.SupportedAssetLists Sample.SoroswapSDK this
           Sample.credentials
           [] [Sdk.getProtocols Sdk.MAINNET] [Sdk.getProtocols Sdk.MAINNET]
           [Sdk.getProtocols Sdk.MAINNET; Sdk.getProtocols Sdk.MAINNET]
           (JString "ok") (JString "ok") unknown
           eq_refl eq_refl eq_refl eq_refl eq_refl).
Defined.

(** C3 as stated fails when continue-on-failure is unset: the run over a
    single item with the operation doesNotExist throws and returns no
    record at all. *)
Lemma unknown_operation_aborts_run :
  ~ In "doesNotExist" operations /\
  sampleExecute (Sample.host false [Sample.item "doesNotExist"]) []
  = (inl (Js.NodeOperationError "Unknown operation: doesNotExist" 0), []) /\
  ~ exists (returnData : list INodeExecutionData) (w' : Sample.World),
      sampleExecute (Sample.host false [Sample.item "doesNotExist"]) []
      = (inr [returnData], w').
Proof.
  split; [| split].
  - cbn. intuition discriminate.
  - reflexivity.
  - intros (returnData & w' & H). discriminate H.
Qed.

Lemma unknown_operation_failure_witness :
  let this :=
    Sample.host true [Sample.item "doesNotExist"; Sample.item "getProtocols"] in
  let unknown :=
    Js.NodeOperationError "Unknown operation: doesNotExist" 0 in
  (forall w0 : Sample.World,
      sampleSwitch this sampleSdk 0%nat w0 = (inl unknown, w0)) /\
  exists (returnData : list INodeExecutionData) (w' : Sample.World)
         (r : INodeExecutionData),
    sampleExecute this [] = (inr [returnData], w') /\
    length returnData = 2%nat /\
    nth_error returnData 0 = Some r /\
    pairedItem r = 0%nat /\
    error r = Some unknown /\
    json r = JObject [("error", JString "Unknown operation: doesNotExist")] /\
    isFailure r = true.
Proof.
  intros this unknown.
  refine (unknown_operation_failure Sample.World Sample.SupportedProtocols
            Sample.SupportedAssetLists Sample.SoroswapSDK this
            Sample.credentials [] 0%nat eq_refl eq_refl _ _).
  - cbn. lia.
  - cbn. intuition discriminate.
Defined.

Lemma integer_coercion_witness :
  let big := "123456789012345678901234567890" in
  let rejected := Js.SyntaxError "Cannot convert abc to a BigInt" in
  let quoteBig :=
    Sample.host true
      [Param.setString "amount" big (Sample.item "quote")] in
  let quoteAbc :=
    Sample.host true
      [Sample.item "getProtocols";
       Param.setString "amount" "abc" (Sample.item "quote");
       Sample.item "getProtocols"] in
  let addBig :=
    Sample.host true
      [Param.setString "amountA" big
         (Param.setString "amountB" "1"
            (Param.setString "to" "GABC" (Sample.item "addLiquidity")))] in
  let removeBig :=
    Sample.host true
      [Param.setString "liquidity" big
         (Param.setString "to" "GABC" (Sample.item "removeLiquidity"))] in
  sampleSwitch quoteBig sampleSdk 0%nat []
  = sampleSdk
      (Sdk.quote EmptyString EmptyString 123456789012345678901234567890
         Sdk.EXACT_IN [Some (Sdk.EnumString "soroswap")] Sdk.MAINNET) []
  /\
  (exists (returnData : list INodeExecutionData) (w' : Sample.World)
          (r : INodeExecutionData),
      sampleExecute quoteAbc [] = (inr [returnData], w') /\
      length returnData = 3%nat /\
      nth_error returnData 1 = Some r /\
      pairedItem r = 1%nat /\
      error r = Some rejected /\
      json r = JObject [("error", JString "Cannot convert abc to a BigInt")]
      /\ isFailure r = true)
  /\
  sampleSwitch addBig sampleSdk 0%nat []
  = (inl (Js.SdkError "Could not get parameter"), [])
  /\
  sampleSwitch removeBig sampleSdk 0%nat []
  = (inl (Js.SdkError "Could not get parameter"), []).
Proof.
  intros big rejected quoteBig quoteAbc addBig removeBig.
  pose proof (integer_coercion Sample.World Sample.SupportedProtocols
                Sample.SupportedAssetLists Sample.SoroswapSDK)
    as (_ & _ & Hbig & Habc & Hto).
  repeat apply conj.
  - exact (Hbig quoteBig sampleSdk 0%nat [] eq_refl eq_refl).
  - refine (proj2 (Habc quoteAbc Sample.credentials [] 1%nat
                     eq_refl eq_refl _ eq_refl eq_refl)).
    cbn. lia.
  - exact (Hto addBig sampleSdk 0%nat [] (or_introl eq_refl)).
  - exact (Hto removeBig sampleSdk 0%nat [] (or_intror eq_refl)).
Defined.

(** C5 as stated fails.  An item whose network or tradeType is outside
    the declared set reaches the remote client with a member of the
    client's own enum (TESTNET, EXACT_OUT) and is a Success; no failure is
    recorded for the out-of-set value.  The other enum-typed parameters
    are not checked either: the client receives an undefined protocol, the
    contract name as given and an undefined asset list, and the items are
    Successes when the client accepts the calls. *)
Lemma out_of_set_enums_succeed :
  sampleExecute
    (Sample.host true
       [Param.setString "network" "BOGUS" (Sample.item "getProtocols");
        Param.setString "tradeType" "BOGUS"
          (Param.setString "amount" "1" (Sample.item "quote"))])
    []
  = (inr [[successItem (JString "ok") 0; successItem (JString "ok") 1]],
     [Sdk.getProtocols Sdk.TESTNET;
      Sdk.quote EmptyString EmptyString 1 Sdk.EXACT_OUT
        [Some (Sdk.EnumString "soroswap")] Sdk.MAINNET])
  /\
  sampleExecute
    (Sample.host true
       [Param.setProtocols ["BOGUS"]
          (Param.setString "amount" "1" (Sample.item "quote"));
        Param.setString "contractName" "BOGUS"
          (Sample.item "getContractAddress");
        Param.setString "assetListName" "BOGUS" (Sample.item "getAssetList")])
    []
  = (inr [[successItem (JString "ok") 0; successItem (JString "ok") 1;
           successItem (JString "ok") 2]],
     [Sdk.quote EmptyString EmptyString 1 Sdk.EXACT_IN [None] Sdk.MAINNET;
      Sdk.getContractAddress Sdk.MAINNET "BOGUS";
      Sdk.getAssetList None]).
Proof. split; reflexivity. Qed.

Lemma enum_parameters_not_validated_witness :
  let bogusNetwork :=
    Sample.host true
      [Param.setString "network" "BOGUS" (Sample.item "getProtocols")] in
  let bogusQuote :=
    Sample.host true
      [Param.setString "tradeType" "BOGUS"
         (Param.setProtocols ["BOGUS"]
            (Param.setString "amount" "1" (Sample.item "quote")))] in
  let bogusPools :=
    Sample.host true [Param.setProtocols ["BoGuS"] (Sample.item "getPools")] in
  let bogusPool :=
    Sample.host true
      [Param.setProtocols ["BoGuS"] (Sample.item "getPoolByTokens")] in
  let bogusContract :=
    Sample.host true
      [Param.setString "contractName" "BOGUS"
         (Sample.item "getContractAddress")] in
  let bogusList :=
    Sample.host true
      [Param.setString "assetListName" "BOGUS" (Sample.item "getAssetList")] in
  sampleSwitch bogusNetwork sampleSdk 0%nat []
  = sampleSdk (Sdk.getProtocols Sdk.TESTNET) [] /\
  sampleSwitch bogusQuote sampleSdk 0%nat []
  = sampleSdk
      (Sdk.quote EmptyString EmptyString 1 Sdk.EXACT_OUT [None] Sdk.MAINNET)
      [] /\
  sampleSwitch bogusPools sampleSdk 0%nat []
  = sampleSdk (Sdk.getPools Sdk.MAINNET ["bogus"]) [] /\
  sampleSwitch bogusPool sampleSdk 0%nat []
  = sampleSdk
      (Sdk.getPoolByTokens EmptyString EmptyString Sdk.MAINNET ["bogus"]) [] /\
  sampleSwitch bogusContract sampleSdk 0%nat []
  = sampleSdk (Sdk.getContractAddress Sdk.MAINNET "BOGUS") [] /\
  sampleSwitch bogusList sampleSdk 0%nat []
  = sampleSdk (Sdk.getAssetList None) [].
Proof.
  intros bogusNetwork bogusQuote bogusPools bogusPool bogusContract bogusList.
  pose (thm := enum_parameters_not_validated Sample.World
                 Sample.SupportedProtocols Sample.SupportedAssetLists).
  repeat apply conj.
  - destruct (thm bogusNetwork sampleSdk 0%nat [])
      as (Hnet & _ & Hcall & _).
    exact (Hcall eq_refl).
  - destruct (thm bogusQuote sampleSdk 0%nat [])
      as (_ & Htrade & _ & Hcall & _).
    exact (Hcall eq_refl 1 eq_refl).
  - destruct (thm bogusPools sampleSdk 0%nat [])
      as (_ & _ & _ & _ & Hcall & _).
    exact (Hcall eq_refl).
  - destruct (thm bogusPool sampleSdk 0%nat [])
      as (_ & _ & _ & _ & _ & Hcall & _).
    exact (Hcall eq_refl).
  - destruct (thm bogusContract sampleSdk 0%nat [])
      as (_ & _ & _ & _ & _ & _ & Hcall & _).
    exact (Hcall eq_refl).
  - destruct (thm bogusList sampleSdk 0%nat [])
      as (_ & _ & _ & _ & _ & _ & _ & Hcall).
    exact (Hcall eq_refl).
Defined.

Lemma protocol_casing_witness :
  let selected := ["SOROSWAP"; "AQUA"] in
  let pools :=
    Sample.host true [Param.setProtocols selected (Sample.item "getPools")] in
  let pool :=
    Sample.host true
      [Param.setProtocols selected (Sample.item "getPoolByTokens")] in
  let quoted :=
    Sample.host true
      [Param.setProtocols selected
         (Param.setString "amount" "7" (Sample.item "quote"))] in
  sampleSwitch pools sampleSdk 0%nat []
  = sampleSdk (Sdk.getPools Sdk.MAINNET ["soroswap"; "aqua"]) [] /\
  sampleSwitch pool sampleSdk 0%nat []
  = sampleSdk
      (Sdk.getPoolByTokens EmptyString EmptyString Sdk.MAINNET
         ["soroswap"; "aqua"]) [] /\
  sampleSwitch quoted sampleSdk 0%nat []
  = sampleSdk
      (Sdk.quote EmptyString EmptyString 7 Sdk.EXACT_IN
         (map Sample.SupportedProtocols selected) Sdk.MAINNET) [].
Proof.
  intros selected pools pool quoted.
  pose (thm := protocol_casing Sample.World Sample.SupportedProtocols
                 Sample.SupportedAssetLists).
  repeat apply conj.
  - destruct (thm pools sampleSdk 0%nat []) as (_ & Hcall & _).
    exact (Hcall eq_refl).
  - destruct (thm pool sampleSdk 0%nat []) as (_ & _ & Hcall & _).
    exact (Hcall eq_refl).
  - destruct (thm quoted sampleSdk 0%nat []) as (_ & _ & _ & Hcall).
    exact (Hcall eq_refl 7 eq_refl).
Defined.

Lemma getPrice_assets_witness :
  let one :=
    Sample.host true [Param.setString "assets" " XLM " (Sample.item "getPrice")] in
  let three :=
    Sample.host true
      [Param.setString "assets" "A, B ,C" (Sample.item "getPrice")] in
  sampleSwitch one sampleSdk 0%nat []
  = sampleSdk (Sdk.getPrice (inl "XLM") Sdk.MAINNET) [] /\
  sampleSwitch three sampleSdk 0%nat []
  = sampleSdk (Sdk.getPrice (inr ["A"; "B"; "C"]) Sdk.MAINNET) [].
Proof.
  intros one three.
  pose (thm := getPrice_assets Sample.World Sample.SupportedProtocols
                 Sample.SupportedAssetLists).
  split.
  - destruct (thm one sampleSdk 0%nat []) as (_ & _ & Hcall).
    exact (proj1 (Hcall eq_refl) "XLM" eq_refl).
  - destruct (thm three sampleSdk 0%nat []) as (_ & _ & Hcall).
    refine (proj2 (Hcall eq_refl) _). cbn. lia.
Defined.

Lemma removeLiquidity_call_never_made_witness :
  let this :=
    Sample.host true
      [Param.setString "assetA" "CAAA"
         (Param.setString "assetB" "CBBB"
            (Param.setString "liquidity" "1000"
               (Param.setString "to" "GABC"
                  (Sample.item "removeLiquidity"))))] in
  In "to" (parametersRead "removeLiquidity") /\
  displayed "to" "removeLiquidity" = false /\
  sampleSwitch this sampleSdk 0%nat []
  = (inl (Js.SdkError "Could not get parameter"), []).
Proof.
  intros this.
  exact (removeLiquidity_call_never_made Sample.World
           Sample.SupportedProtocols Sample.SupportedAssetLists
           this sampleSdk 0%nat [] eq_refl).
Defined.

(** The run over that item with continue-on-failure set: one Failure
    record and no remote call. *)
Example removeLiquidity_run :
  sampleExecute
    (Sample.host true
       [Param.setString "liquidity" "1000"
          (Param.setString "to" "GABC" (Sample.item "removeLiquidity"))]) []
  = (inr [[failureItem (Js.SdkError "Could not get parameter") 0]], []).
Proof. reflexivity. Qed.

Lemma getAssetList_selector_witness :
  let all := Sample.host false [Sample.item "getAssetList"] in
  let lobstr :=
    Sample.host false
      [Param.setString "assetListName" "LOBSTR" (Sample.item "getAssetList")] in
  (sampleSwitch all sampleSdk 0%nat [] = sampleSdk (Sdk.getAssetList None) [] /\
   sampleBody all sampleSdk 0%nat [] []
   = (inr [successItem (JString "ok") 0], [Sdk.getAssetList None])) /\
  sampleSwitch lobstr sampleSdk 0%nat []
  = sampleSdk
      (Sdk.getAssetList
         (Some (Sdk.EnumString "https://lists.example/lobstr"))) [].
Proof.
  intros all lobstr.
  pose (thm := getAssetList_selector Sample.World Sample.SupportedProtocols
                 Sample.SupportedAssetLists).
  split.
  - destruct (thm all sampleSdk 0%nat [] [] eq_refl) as (Hempty & _).
    destruct (Hempty eq_refl) as (Hcall & Hok).
    split; [exact Hcall |].
    exact (Hok (JString "ok") [Sdk.getAssetList None] eq_refl).
  - destruct (thm lobstr sampleSdk 0%nat [] [] eq_refl) as (_ & Hname).
    refine (Hname _). discriminate.
Defined.

Lemma empty_integer_is_zero_witness :
  let quoted := Sample.host false [Sample.item "quote"] in
  let added := Sample.host false [Sample.item "addLiquidity"] in
  let removed := Sample.host false [Sample.item "removeLiquidity"] in
  sampleSwitch quoted sampleSdk 0%nat []
  = sampleSdk
      (Sdk.quote EmptyString EmptyString 0 Sdk.EXACT_IN
         [Some (Sdk.EnumString "soroswap")] Sdk.MAINNET) [] /\
  sampleSwitch added sampleSdk 0%nat []
  = (inl (Js.SdkError "Could not get parameter"), []) /\
  sampleSwitch removed sampleSdk 0%nat []
  = (inl (Js.SdkError "Could not get parameter"), []).
Proof.
  intros quoted added removed.
  pose (thm := empty_integer_is_zero Sample.World Sample.SupportedProtocols
                 Sample.SupportedAssetLists).
  repeat apply conj.
  - destruct (thm quoted sampleSdk 0%nat []) as (_ & Hcall & _).
    exact (Hcall eq_refl eq_refl).
  - destruct (thm added sampleSdk 0%nat []) as (_ & _ & Hto).
    exact (Hto (or_introl eq_refl)).
  - destruct (thm removed sampleSdk 0%nat []) as (_ & _ & Hto).
    exact (Hto (or_intror eq_refl)).
Defined.

Lemma defaults_match_description (property : Description.INodeProperties) :
  In property Description.properties ->
  Param.get (Description.name property) Param.defaults
  = Some (Description.default property).
Proof.
  intros Hin. cbn in Hin.
  repeat (destruct Hin as [<- | Hin]; [reflexivity |]). contradiction.
Qed.

(** ** Instances of the further properties *)

Lemma credential_failure_is_fatal_witness :
  let this :=
    {| getInputData := [JNull; JNull];
       getCredentials := fun _ => inl (Js.SdkError "Credentials not found");
       nodeParameters := fun _ => Param.defaults;
       continueOnFail := true |} in
  sampleExecute (withContinueOnFail true this) []
  = (inl (Js.SdkError "Credentials not found"), []) /\
  sampleExecute (withContinueOnFail false this) []
  = (inl (Js.SdkError "Credentials not found"), []).
Proof.
  intros this.
  pose (thm := credential_failure_is_fatal Sample.World
                 Sample.SupportedProtocols Sample.SupportedAssetLists
                 Sample.SoroswapSDK this
                 (Js.SdkError "Credentials not found") [] eq_refl).
  split; [exact (thm true) | exact (thm false)].
Defined.

Lemma forLoop_appends_witness :
  let this :=
    Sample.host true [Sample.item "getProtocols"; Sample.item "doesNotExist"] in
  let earlier := [successItem JNull 7] in
  exists suffix : list INodeExecutionData,
    earlier
    ++ [successItem (JString "ok") 0;
        failureItem
          (Js.NodeOperationError "Unknown operation: doesNotExist" 1) 1]
    = earlier ++ suffix /\
    map pairedItem suffix = [0; 1]%nat /\
    (true = false -> Forall (fun r => isSuccess r = true) suffix).
Proof.
  intros this earlier.
  exact (forLoop_appends Sample.World Sample.SupportedProtocols
           Sample.SupportedAssetLists this sampleSdk 2 0 earlier _ [] _
           eq_refl).
Defined.

Lemma execute_output_shape_witness :
  let this :=
    Sample.host false [Sample.item "getProtocols"; Sample.item "getPools"] in
  exists returnData : list INodeExecutionData,
    [[successItem (JString "ok") 0; successItem (JString "ok") 1]]
    = [returnData] /\
    map pairedItem returnData = [0; 1]%nat /\
    (false = false -> Forall (fun r => isSuccess r = true) returnData).
Proof.
  intros this.
  exact (execute_output_shape Sample.World Sample.SupportedProtocols
           Sample.SupportedAssetLists Sample.SoroswapSDK this _ [] _ eq_refl).
Defined.

Lemma execute_failFast_abort_witness :
  sampleExecute
    (Sample.host false
       [Sample.item "getProtocols"; Sample.item "send";
        Sample.item "getProtocols"]) []
  = (inl (Js.NodeOperationError "Bad Request" 1),
     [Sdk.getProtocols Sdk.MAINNET; Sdk.send EmptyString false Sdk.MAINNET]).
Proof.
  refine (execute_failFast_abort Sample.World Sample.SupportedProtocols
            Sample.SupportedAssetLists Sample.SoroswapSDK
            (Sample.host false
               [Sample.item "getProtocols"; Sample.item "send";
                Sample.item "getProtocols"])
            Sample.credentials [] _ 1%nat (Js.SdkError "Bad Request")
            eq_refl eq_refl _ _ eq_refl).
  - cbn. lia.
  - intros j Hj. destruct j as [| j]; [| lia].
    exists (JString "ok"). reflexivity.
Defined.

Lemma flag_irrelevant_without_failure_witness :
  let this :=
    Sample.host true [Sample.item "getProtocols"; Sample.item "getAssetList"] in
  sampleExecute (withContinueOnFail false this) []
  = sampleExecute (withContinueOnFail true this) [].
Proof.
  intros this.
  refine (flag_irrelevant_without_failure Sample.World
            Sample.SupportedProtocols Sample.SupportedAssetLists
            Sample.SoroswapSDK this Sample.credentials [] eq_refl _).
  intros j Hj. destruct j as [| [| j]]; [| | cbn in Hj; lia];
    exists (JString "ok"); reflexivity.
Defined.

Lemma unknown_iff_not_an_option_witness :
  let this := Sample.host true [Sample.item "swap"] in
  ~ In "swap" operations /\
  sampleSwitch this sampleSdk 0%nat []
  = (inl (Js.NodeOperationError "Unknown operation: swap" 0), []).
Proof.
  intros this.
  assert (Hno : ~ In "swap" operations) by (cbn; intuition discriminate).
  split; [exact Hno |].
  exact (proj2 (unknown_iff_not_an_option Sample.World
                  Sample.SupportedProtocols Sample.SupportedAssetLists
                  this 0%nat []) Hno sampleSdk).
Defined.

Lemma no_local_validation_witness :
  let this := Sample.host true [Sample.item "getUserPositions"] in
  exists call : Sdk.Call,
    forall (sdk : Sdk.Call -> Eff Sample.World Json) (w : Sample.World),
      sampleSwitch this sdk 0%nat w = sdk call w.
Proof.
  intros this.
  refine (no_local_validation Sample.World Sample.SupportedProtocols
            Sample.SupportedAssetLists this 0%nat _).
  cbn. tauto.
Defined.

Lemma switch_reads_only_its_parameters_witness :
  let plain :=
    Sample.host true
      [Param.setString "liquidity" "5" (Sample.item "removeLiquidity")] in
  let noisy :=
    Sample.host true
      [Param.setString "amountA" "77"
         (Param.setString "amountB" "88"
            (Param.setString "assets" "XLM"
               (Param.setString "liquidity" "5"
                  (Sample.item "removeLiquidity"))))] in
  sampleSwitch plain sampleSdk 0%nat [] = sampleSwitch noisy sampleSdk 0%nat [].
Proof.
  intros plain noisy.
  refine (switch_reads_only_its_parameters Sample.World
            Sample.SupportedProtocols Sample.SupportedAssetLists
            plain noisy sampleSdk 0%nat [] eq_refl eq_refl _).
  intros name Hin. cbn in Hin.
  repeat (destruct Hin as [<- | Hin]; [reflexivity |]). contradiction.
Defined.

Lemma decimal_amounts_round_trip_witness :
  let quoted :=
    Sample.host true [Param.setString "amount" "1234" (Sample.item "quote")] in
  sampleSwitch quoted sampleSdk 0%nat []
  = sampleSdk
      (Sdk.quote EmptyString EmptyString 1234 Sdk.EXACT_IN
         [Some (Sdk.EnumString "soroswap")] Sdk.MAINNET) [].
Proof.
  intros quoted.
  exact (decimal_amounts_round_trip Sample.World Sample.SupportedProtocols
           Sample.SupportedAssetLists quoted sampleSdk 0%nat [] 1234%nat
           eq_refl eq_refl).
Defined.

Lemma negative_amounts_transmitted_witness :
  let quoted :=
    Sample.host true [Param.setString "amount" "-15" (Sample.item "quote")] in
  sampleSwitch quoted sampleSdk 0%nat []
  = sampleSdk
      (Sdk.quote EmptyString EmptyString (-15) Sdk.EXACT_IN
         [Some (Sdk.EnumString "soroswap")] Sdk.MAINNET) [].
Proof.
  intros quoted.
  exact (negative_amounts_transmitted Sample.World Sample.SupportedProtocols
           Sample.SupportedAssetLists quoted sampleSdk 0%nat [] 15%nat
           eq_refl eq_refl).
Defined.

Lemma padded_amounts_transmitted_witness :
  let quoted :=
    Sample.host true [Param.setString "amount" "  0x10 " (Sample.item "quote")] in
  sampleSwitch quoted sampleSdk 0%nat []
  = sampleSdk
      (Sdk.quote EmptyString EmptyString 16 Sdk.EXACT_IN
         [Some (Sdk.EnumString "soroswap")] Sdk.MAINNET) [].
Proof.
  intros quoted.
  exact (padded_amounts_transmitted Sample.World Sample.SupportedProtocols
           Sample.SupportedAssetLists quoted sampleSdk 0%nat []
           "  " "0x10" " " 16 eq_refl eq_refl eq_refl eq_refl eq_refl).
Defined.

Lemma getPrice_unwrapped_iff_no_comma_witness :
  let blank := Sample.host true [Sample.item "getPrice"] in
  let trailing :=
    Sample.host true [Param.setString "assets" "XLM ," (Sample.item "getPrice")] in
  sampleSwitch blank sampleSdk 0%nat []
  = sampleSdk (Sdk.getPrice (inl EmptyString) Sdk.MAINNET) [] /\
  sampleSwitch trailing sampleSdk 0%nat []
  = sampleSdk (Sdk.getPrice (inr ["XLM"; EmptyString]) Sdk.MAINNET) [].
Proof.
  intros blank trailing.
  pose (thm := getPrice_unwrapped_iff_no_comma Sample.World
                 Sample.SupportedProtocols Sample.SupportedAssetLists).
  split.
  - refine (proj1 (thm blank sampleSdk 0%nat [] eq_refl) _).
    intros a b H. destruct a; discriminate H.
  - exact (proj2 (thm trailing sampleSdk 0%nat [] eq_refl)
             "XLM " EmptyString eq_refl).
Defined.

Lemma displayed_and_read_witness :
  let to := Description.stringProperty "to" false ["build"] in
  (In "addLiquidity" ["build"] -> In "to" (parametersRead "addLiquidity")) /\
  (In "to" (parametersRead "addLiquidity") ->
   In "addLiquidity" ["build"] \/
   ("to" = "to" /\ ["build"] = ["build"] /\
    ("addLiquidity" = "addLiquidity" \/ "addLiquidity" = "removeLiquidity"))).
Proof.
  intros to.
  refine (displayed_and_read "addLiquidity" to ["build"] _ _ eq_refl).
  - cbn. tauto.
  - cbn. tauto.
Defined.
